(** * Data-Science-Infinity: the model-building scripts

    A shallow embedding of
      - [Machine Learning/Model Building/201_Logistic_Regression_Basic.py]
      - [Machine Learning/Model Building/204_Classification_Tree_Advanced.py]

    Both files are straight-line scripts over pandas, scikit-learn,
    feature_engine, numpy and matplotlib.  The libraries are not part of the
    repository, so their behaviour is a parameter ([Lib.World]); what is
    embedded is the scripts' own control and data flow: which call is made
    with which arguments, in which order, what happens to each returned
    value, and what an exception does.

    Effects.  A script statement either returns or raises; the scripts have
    no [try].  A run is therefore a value of [Py A]: the outcome together
    with the log of the library calls made so far (a writer monad with
    exceptions).  Every call appends one [event].

    Objects.  An estimator and the one-hot encoder are records that hold
    their constructor arguments and what [fit] stored; a method that
    mutates its object returns the updated record, which the script goes on
    with.  [drop(..., inplace = True)] and [dropna(inplace = True)] rebind
    the only name the frame has.  [import] statements are not modelled.

    Numbers.  The scores returned by sklearn.metrics are finite floats in
    [0, 1]; the scripts only compare them ([max], [list.index]) and hand
    them on.  Comparison of finite floats is exact, so a score is modelled
    as a rational and [==] as [Qeq_bool].

    Randomness.  A library function that draws random numbers is a function
    of the generator it is handed: a generator seeded with the
    [random_state] it was given, or the process-wide one, whose state
    ([ambient]) differs from run to run. *)

From Stdlib Require Import List String ZArith QArith Bool Lia.
Import ListNotations.
Open Scope string_scope.
Open Scope list_scope.

(** ** Python outcomes *)

(** An exception is identified by its class name. *)
Definition exn := string.

Inductive result (A : Type) : Type :=
| Ok (a : A)
| Raise (e : exn).
Arguments Ok {A} a.
Arguments Raise {A} e.

Definition is_ok {A} (r : result A) : bool :=
  match r with Ok _ => true | Raise _ => false end.

(** ** The library interface *)

Inductive estimator_kind := LogisticRegressionK | DecisionTreeClassifierK.

Module Lib.

(** The Python types the scripts handle but never look into. *)
Record PyTypes : Type := {
  frame : Type;      (* pandas.DataFrame *)
  labels : Type;     (* a target column: pandas.Series or 1-d ndarray *)
  summary : Type;    (* result of value_counts() / isna().sum() *)
  probs : Type;      (* ndarray returned by predict_proba *)
  matrix : Type;     (* ndarray returned by confusion_matrix *)
  model : Type;      (* what a fitted estimator has learned *)
  encoding : Type;   (* what a fitted OneHotEncoder has learned *)
  file : Type;       (* an open binary file *)
  axes : Type;       (* the value returned by plot_tree *)
  entropy : Type     (* state of numpy's process-wide generator *)
}.

(** sklearn's [check_random_state]: an int seeds a fresh generator, [None]
    falls back on the process-wide one. *)
Inductive rng (T : PyTypes) : Type :=
| Seeded (seed : Z)
| Ambient (e : entropy T).
Arguments Seeded {T} seed.
Arguments Ambient {T} e.

(** Keyword arguments of feature_engine's OneHotEncoder. *)
Record ohe_params : Type := {
  top_categories : option Z;
  variables : list string;
  drop_last : bool
}.

(** Values handed to [print] and to the plotting calls. *)
Inductive pyval (T : PyTypes) : Type :=
| VStr (s : string)
| VInt (z : Z)
| VFloat (q : Q)
| VInts (l : list Z)
| VFloats (l : list Q)
| VMatrix (m : matrix T)
| VModel (m : model T)
| VColumns (c : list string).
Arguments VStr {T} s.
Arguments VInt {T} z.
Arguments VFloat {T} q.
Arguments VInts {T} l.
Arguments VFloats {T} l.
Arguments VMatrix {T} m.
Arguments VModel {T} m.
Arguments VColumns {T} c.

(** The plotting entry points the scripts use. *)
Inductive plot_fn :=
| style_use | matshow | gca_xaxis_tick_bottom | title | ylabel | xlabel
| text | show | plot | scatter | tight_layout | figure.

Record World (T : PyTypes) : Type := {
  (* builtins *)
  open : string -> string -> result (file T);
  print : list (pyval T) -> result unit;
  round : Q -> Z -> Q;
  (* pickle *)
  load : file T -> result (frame T);
  (* pandas *)
  read_csv : string -> result (frame T);
  drop : frame T -> list string -> result (frame T);
  getitem : frame T -> string -> result (labels T);
  value_counts : labels T -> bool -> result (summary T);
  isna : frame T -> result (frame T);
  sum : frame T -> result (summary T);
  dropna : frame T -> result (frame T);
  columns : frame T -> list string;
  (* sklearn.utils, sklearn.model_selection *)
  shuffle : rng T -> frame T -> result (frame T);
  train_test_split :
    rng T -> Q -> frame T -> labels T -> labels T ->
    result (frame T * frame T * labels T * labels T);
  (* sklearn estimators: kind, max_depth, generator, X, y *)
  fit : estimator_kind -> option Z -> rng T -> frame T -> labels T ->
        result (model T);
  predict : model T -> frame T -> result (labels T);
  predict_proba : model T -> frame T -> result (probs T);
  column : probs T -> Z -> result (probs T);
  plot_tree : model T -> list string -> result (axes T);
  (* sklearn.metrics: y_true, y_pred *)
  confusion_matrix : labels T -> labels T -> result (matrix T);
  accuracy_score : labels T -> labels T -> result Q;
  precision_score : labels T -> labels T -> result Q;
  recall_score : labels T -> labels T -> result Q;
  f1_score : labels T -> labels T -> result Q;
  (* feature_engine.encoding.OneHotEncoder *)
  ohe_fit : ohe_params -> frame T -> result (encoding T);
  ohe_transform : encoding T -> frame T -> result (frame T);
  (* numpy *)
  ndenumerate : matrix T -> list ((Z * Z) * Z);
  (* matplotlib.pyplot *)
  pyplot : plot_fn -> list (pyval T) -> result unit
}.

Arguments open {T}. Arguments print {T}. Arguments round {T}.
Arguments load {T}. Arguments read_csv {T}. Arguments drop {T}.
Arguments getitem {T}. Arguments value_counts {T}. Arguments isna {T}.
Arguments sum {T}. Arguments dropna {T}. Arguments columns {T}.
Arguments shuffle {T}. Arguments train_test_split {T}. Arguments fit {T}.
Arguments predict {T}. Arguments predict_proba {T}. Arguments column {T}.
Arguments plot_tree {T}. Arguments confusion_matrix {T}.
Arguments accuracy_score {T}. Arguments precision_score {T}.
Arguments recall_score {T}. Arguments f1_score {T}.
Arguments ohe_fit {T}. Arguments ohe_transform {T}.
Arguments ndenumerate {T}. Arguments pyplot {T}.
Arguments Build_World T & _ _ _ _ _ _ _ _ _ _ _ _ _ _ _ _ _ _ _ _ _ _ _ _ _ _ _ _.

End Lib.

(** ** The call log *)

(** The callee of a logged call, with the keyword arguments the claims talk
    about. *)
Inductive fn :=
| builtin_open | builtin_print | builtin_max | builtin_index | builtin_getitem
| pickle_load
| pd_read_csv | df_drop | df_getitem | series_value_counts | df_isna
| df_sum | df_dropna
| sk_shuffle (random_state : option Z)
| sk_train_test_split (random_state : option Z)
| LogisticRegression_init (random_state : option Z)
| DecisionTreeClassifier_init (random_state : option Z) (max_depth : option Z)
| clf_fit (k : estimator_kind) (random_state : option Z) (max_depth : option Z)
| clf_predict | clf_predict_proba | ndarray_getitem
| sk_confusion_matrix | sk_accuracy_score | sk_precision_score
| sk_recall_score | sk_f1_score
| sk_plot_tree
| OneHotEncoder_init | ohe_fit_transform | ohe_transform
| np_ndenumerate
| plt (p : Lib.plot_fn).

Inductive call_outcome :=
| Returned                  (* the call returned *)
| ReturnedScore (q : Q)     (* a metric returned the score [q] *)
| Raised (e : exn).         (* the call raised *)

Record event (T : Lib.PyTypes) : Type := Ev {
  callee : fn;
  shown : list (Lib.pyval T);   (* what a print / plot call puts on display *)
  outcome_of : call_outcome
}.
Arguments Ev {T}.
Arguments callee {T}.
Arguments shown {T}.
Arguments outcome_of {T}.

(** ** Runs *)

Definition Py (T : Lib.PyTypes) (A : Type) : Type :=
  (result A * list (event T))%type.

Definition ret {T A} (a : A) : Py T A := (Ok a, []).

Definition bind {T A B} (m : Py T A) (k : A -> Py T B) : Py T B :=
  match m with
  | (Ok a, t) => let (r, t') := k a in (r, t ++ t')
  | (Raise e, t) => (Raise e, t)
  end.

Declare Scope py_scope.
Delimit Scope py_scope with py.
Notation "x <- m ;; k" := (bind m (fun x => k))
  (at level 61, m at next level, right associativity) : py_scope.
Notation "' p <- m ;; k" := (bind m (fun p => k))
  (at level 61, p pattern, m at next level, right associativity) : py_scope.
Notation "m ;; k" := (bind m (fun _ => k))
  (at level 61, right associativity) : py_scope.
Open Scope py_scope.

Definition outcome_result {A} (r : result A) : call_outcome :=
  match r with Ok _ => Returned | Raise e => Raised e end.

(** A library call: one log entry, then its result. *)
Definition call {T A} (f : fn) (r : result A) : Py T A :=
  (r, [Ev f [] (outcome_result r)]).

(** A call into sklearn.metrics that returns a score. *)
Definition metric {T} (f : fn) (r : result Q) : Py T Q :=
  (r, [Ev f [] (match r with Ok q => ReturnedScore q | Raise e => Raised e end)]).

(** [print] or a plotting call: the log entry keeps what is displayed. *)
Definition display {T A} (f : fn) (args : list (Lib.pyval T)) (r : result A)
  : Py T A :=
  (r, [Ev f args (outcome_result r)]).

(** [for x in l: body] *)
Fixpoint for_each {T A} (l : list A) (body : A -> Py T unit) : Py T unit :=
  match l with
  | [] => ret tt
  | x :: l' => body x ;; for_each l' body
  end.

(** [for x in l: s = body(s, x)], the loop's variables threaded as [s]. *)
Fixpoint for_fold {T A S} (l : list A) (s : S) (body : S -> A -> Py T S)
  : Py T S :=
  match l with
  | [] => ret s
  | x :: l' => s' <- body s x ;; for_fold l' s' body
  end.

Definition outcome {T A} (m : Py T A) : result A := fst m.
Definition trace {T A} (m : Py T A) : list (event T) := snd m.
Definition calls {T A} (m : Py T A) : list fn := map callee (trace m).

(** ** Python builtins on lists *)

(** [list(range(a, b))] *)
Definition range (a b : Z) : list Z :=
  map (fun i => (a + Z.of_nat i)%Z) (seq 0 (Z.to_nat (b - a))).

Definition Qgtb (a b : Q) : bool := negb (Qle_bool a b).

(** [max(l)]: the running maximum is replaced only by a strictly greater
    item, so of several equal maxima the first is returned. *)
Definition max_list (l : list Q) : result Q :=
  match l with
  | [] => Raise "ValueError"
  | x :: l' => Ok (fold_left (fun m item => if Qgtb item m then item else m) l' x)
  end.

(** [l.index(x)]: position of the first item equal to [x]. *)
Fixpoint index_list (l : list Q) (x : Q) : result nat :=
  match l with
  | [] => Raise "ValueError"
  | item :: l' =>
      if Qeq_bool item x then Ok 0%nat
      else match index_list l' x with
           | Ok i => Ok (S i)
           | Raise e => Raise e
           end
  end.

(** [l[i]] for a non-negative index. *)
Definition getitem_list {A} (l : list A) (i : nat) : result A :=
  match nth_error l i with
  | Some a => Ok a
  | None => Raise "IndexError"
  end.

(** ** Python objects with state *)

(** An sklearn estimator: constructor arguments, and what [fit] stored. *)
Record estimator (T : Lib.PyTypes) : Type := {
  kind : estimator_kind;
  random_state : option Z;
  max_depth : option Z;
  learned : option (Lib.model T)
}.
Arguments kind {T}.
Arguments random_state {T}.
Arguments max_depth {T}.
Arguments learned {T}.

(** A feature_engine OneHotEncoder: constructor arguments, and the encoding
    [fit] stored in [encoder_dict_]. *)
Record encoder (T : Lib.PyTypes) : Type := {
  params : Lib.ohe_params;
  encoder_dict_ : option (Lib.encoding T)
}.
Arguments params {T}.
Arguments encoder_dict_ {T}.

(** ** The calls the scripts make *)

(** What a run depends on: the libraries (with the files they read) and the
    state of the process-wide random generator. *)
Class Runtime (T : Lib.PyTypes) : Type := {
  world : Lib.World T;
  ambient : Lib.entropy T
}.

Module Call.
Section Calls.
Context {T : Lib.PyTypes} {R : Runtime T}.

Definition check_random_state (seed : option Z) : Lib.rng T :=
  match seed with
  | Some s => Lib.Seeded s
  | None => Lib.Ambient ambient
  end.

(* builtins *)
Definition open (path mode : string) : Py T (Lib.file T) :=
  call builtin_open (Lib.open world path mode).
Definition print (args : list (Lib.pyval T)) : Py T unit :=
  display builtin_print args (Lib.print world args).
Definition max (l : list Q) : Py T Q := call builtin_max (max_list l).
Definition index (l : list Q) (x : Q) : Py T nat :=
  call builtin_index (index_list l x).
Definition item (l : list Z) (i : nat) : Py T Z :=
  call builtin_getitem (getitem_list l i).

(* pickle, pandas *)
Definition load (f : Lib.file T) : Py T (Lib.frame T) :=
  call pickle_load (Lib.load world f).
Definition read_csv (path : string) : Py T (Lib.frame T) :=
  call pd_read_csv (Lib.read_csv world path).
Definition drop (df : Lib.frame T) (cols : list string) : Py T (Lib.frame T) :=
  call df_drop (Lib.drop world df cols).
Definition getitem (df : Lib.frame T) (col : string) : Py T (Lib.labels T) :=
  call df_getitem (Lib.getitem world df col).
Definition value_counts (s : Lib.labels T) (normalize : bool)
  : Py T (Lib.summary T) :=
  call series_value_counts (Lib.value_counts world s normalize).
Definition isna (df : Lib.frame T) : Py T (Lib.frame T) :=
  call df_isna (Lib.isna world df).
Definition sum (df : Lib.frame T) : Py T (Lib.summary T) :=
  call df_sum (Lib.sum world df).
Definition dropna (df : Lib.frame T) : Py T (Lib.frame T) :=
  call df_dropna (Lib.dropna world df).

(* sklearn.utils, sklearn.model_selection *)
Definition shuffle (df : Lib.frame T) (seed : option Z) : Py T (Lib.frame T) :=
  call (sk_shuffle seed) (Lib.shuffle world (check_random_state seed) df).
Definition train_test_split (X : Lib.frame T) (y : Lib.labels T)
    (test_size : Q) (seed : option Z) (stratify : Lib.labels T)
  : Py T (Lib.frame T * Lib.frame T * Lib.labels T * Lib.labels T) :=
  call (sk_train_test_split seed)
    (Lib.train_test_split world (check_random_state seed) test_size X y stratify).

(* estimators: the constructors only store their arguments *)
Definition LogisticRegression (seed : option Z) : Py T (estimator T) :=
  call (LogisticRegression_init seed)
    (Ok {| kind := LogisticRegressionK; random_state := seed;
           max_depth := None; learned := None |}).
Definition DecisionTreeClassifier (seed : option Z) (depth : option Z)
  : Py T (estimator T) :=
  call (DecisionTreeClassifier_init seed depth)
    (Ok {| kind := DecisionTreeClassifierK; random_state := seed;
           max_depth := depth; learned := None |}).

(** [clf.fit(X, y)] stores what was learned in [clf]; the run goes on with
    the updated object. *)
Definition fit (clf : estimator T) (X : Lib.frame T) (y : Lib.labels T)
  : Py T (estimator T) :=
  m <- call (clf_fit (kind clf) (random_state clf) (max_depth clf))
         (Lib.fit world (kind clf) (max_depth clf)
            (check_random_state (random_state clf)) X y) ;;
  ret {| kind := kind clf; random_state := random_state clf;
         max_depth := max_depth clf; learned := Some m |}.

Definition predict (clf : estimator T) (X : Lib.frame T) : Py T (Lib.labels T) :=
  call clf_predict
    (match learned clf with
     | Some m => Lib.predict world m X
     | None => Raise "NotFittedError"
     end).
Definition predict_proba (clf : estimator T) (X : Lib.frame T)
  : Py T (Lib.probs T) :=
  call clf_predict_proba
    (match learned clf with
     | Some m => Lib.predict_proba world m X
     | None => Raise "NotFittedError"
     end).
(** [a[:, j]] *)
Definition column (a : Lib.probs T) (j : Z) : Py T (Lib.probs T) :=
  call ndarray_getitem (Lib.column world a j).
Definition plot_tree (clf : estimator T) (feature_names : list string)
  : Py T (Lib.axes T) :=
  match learned clf with
  | Some m =>
      display sk_plot_tree [Lib.VModel m; Lib.VColumns feature_names]
        (Lib.plot_tree world m feature_names)
  | None =>
      display sk_plot_tree [Lib.VColumns feature_names] (Raise "NotFittedError")
  end.

(* sklearn.metrics *)
Definition confusion_matrix (y_true y_pred : Lib.labels T) : Py T (Lib.matrix T) :=
  call sk_confusion_matrix (Lib.confusion_matrix world y_true y_pred).
Definition accuracy_score (y_true y_pred : Lib.labels T) : Py T Q :=
  metric sk_accuracy_score (Lib.accuracy_score world y_true y_pred).
Definition precision_score (y_true y_pred : Lib.labels T) : Py T Q :=
  metric sk_precision_score (Lib.precision_score world y_true y_pred).
Definition recall_score (y_true y_pred : Lib.labels T) : Py T Q :=
  metric sk_recall_score (Lib.recall_score world y_true y_pred).
Definition f1_score (y_true y_pred : Lib.labels T) : Py T Q :=
  metric sk_f1_score (Lib.f1_score world y_true y_pred).

(* feature_engine *)
Definition OneHotEncoder (top : option Z) (vars : list string) (last : bool)
  : Py T (encoder T) :=
  call OneHotEncoder_init
    (Ok {| params := {| Lib.top_categories := top; Lib.variables := vars;
                        Lib.drop_last := last |};
           encoder_dict_ := None |}).

(** [enc.fit_transform(X)]: learn the encoding from [X], keep it in the
    encoder, and encode [X] with it. *)
Definition fit_transform (enc : encoder T) (X : Lib.frame T)
  : Py T (encoder T * Lib.frame T) :=
  call ohe_fit_transform
    (match Lib.ohe_fit world (params enc) X with
     | Ok e =>
         match Lib.ohe_transform world e X with
         | Ok X' => Ok ({| params := params enc; encoder_dict_ := Some e |}, X')
         | Raise x => Raise x
         end
     | Raise x => Raise x
     end).

(** [enc.transform(X)]: encode [X] with the encoding the encoder holds. *)
Definition transform (enc : encoder T) (X : Lib.frame T) : Py T (Lib.frame T) :=
  call ohe_transform
    (match encoder_dict_ enc with
     | Some e => Lib.ohe_transform world e X
     | None => Raise "NotFittedError"
     end).

(* numpy *)
Definition ndenumerate (m : Lib.matrix T) : Py T (list ((Z * Z) * Z)) :=
  call np_ndenumerate (Ok (Lib.ndenumerate world m)).

(* matplotlib.pyplot *)
Definition pyplot (p : Lib.plot_fn) (args : list (Lib.pyval T)) : Py T unit :=
  display (plt p) args (Lib.pyplot world p args).

End Calls.
End Call.

(** ** 201_Logistic_Regression_Basic.py *)

Module LogisticRegressionBasic.
Import Call.

(** The module's variables once the script has run. *)
Record globals (T : Lib.PyTypes) : Type := {
  my_df : Lib.frame T;
  X : Lib.frame T;
  y : Lib.labels T;
  X_train : Lib.frame T;
  X_test : Lib.frame T;
  y_train : Lib.labels T;
  y_test : Lib.labels T;
  clf : estimator T;
  y_pred : Lib.labels T;
  y_pred_prob : Lib.probs T;
  conf_matrix : Lib.matrix T
}.
Arguments my_df {T}. Arguments X {T}. Arguments y {T}.
Arguments X_train {T}. Arguments X_test {T}.
Arguments y_train {T}. Arguments y_test {T}.
Arguments clf {T}. Arguments y_pred {T}. Arguments y_pred_prob {T}.
Arguments conf_matrix {T}.

Section Script.
Context {T : Lib.PyTypes} {R : Runtime T}.

Definition script : Py T (globals T) :=
  (* Import sample data *)
  my_df <- read_csv "data/sample_data_classification.csv" ;;
  (* Split data into input and output objects *)
  X <- drop my_df ["output"] ;;
  y <- getitem my_df "output" ;;
  (* Split data into training and test sets *)
  '(X_train, X_test, y_train, y_test) <-
     train_test_split X y 0.2 (Some 42%Z) y ;;
  (* Instantiate our model object *)
  clf <- LogisticRegression (Some 42%Z) ;;
  (* Train our model *)
  clf <- fit clf X_train y_train ;;
  (* Assess model accuracy *)
  y_pred <- predict clf X_test ;;
  accuracy_score y_test y_pred ;;
  y_pred_prob <- predict_proba clf X_test ;;
  (* Confusion Matrix *)
  conf_matrix <- confusion_matrix y_test y_pred ;;
  print [Lib.VMatrix conf_matrix] ;;
  pyplot Lib.style_use [Lib.VStr "seaborn-poster"] ;;
  pyplot Lib.matshow [Lib.VMatrix conf_matrix; Lib.VStr "coolwarm"] ;;
  pyplot Lib.gca_xaxis_tick_bottom [] ;;
  pyplot Lib.title [Lib.VStr "Confusion Matrix"] ;;
  pyplot Lib.ylabel [Lib.VStr "Actual Class"] ;;
  pyplot Lib.xlabel [Lib.VStr "Predicted Class"] ;;
  cells <- ndenumerate conf_matrix ;;
  for_each cells (fun '((i, j), corr_value) =>
    pyplot Lib.text [Lib.VInt j; Lib.VInt i; Lib.VInt corr_value]) ;;
  pyplot Lib.show [] ;;
  ret {| my_df := my_df; X := X; y := y;
         X_train := X_train; X_test := X_test;
         y_train := y_train; y_test := y_test;
         clf := clf; y_pred := y_pred; y_pred_prob := y_pred_prob;
         conf_matrix := conf_matrix |}.

End Script.
End LogisticRegressionBasic.

(** ** 204_Classification_Tree_Advanced.py *)

Module ClassificationTreeAdvanced.
Import Call.

(** The module's variables once the script has run. *)
Record globals (T : Lib.PyTypes) : Type := {
  data_for_model : Lib.frame T;
  X : Lib.frame T;
  y : Lib.labels T;
  X_train : Lib.frame T;
  X_test : Lib.frame T;
  y_train : Lib.labels T;
  y_test : Lib.labels T;
  ohe_enc : encoder T;
  clf : estimator T;
  y_pred_class : Lib.labels T;
  y_pred_prob : Lib.probs T;
  conf_matrix : Lib.matrix T;
  max_depth_list : list Z;
  accuracy_scores : list Q;
  max_accuracy : Q;
  max_accuracy_idx : nat;
  optimal_depth : Z;
  tree : Lib.axes T
}.
Arguments data_for_model {T}. Arguments X {T}. Arguments y {T}.
Arguments X_train {T}. Arguments X_test {T}.
Arguments y_train {T}. Arguments y_test {T}.
Arguments ohe_enc {T}. Arguments clf {T}.
Arguments y_pred_class {T}. Arguments y_pred_prob {T}.
Arguments conf_matrix {T}. Arguments max_depth_list {T}.
Arguments accuracy_scores {T}. Arguments max_accuracy {T}.
Arguments max_accuracy_idx {T}. Arguments optimal_depth {T}.
Arguments tree {T}.

Section Script.
Context {T : Lib.PyTypes} {R : Runtime T}.

(** The body of [for depth in max_depth_list]; the loop rebinds [clf] and
    appends to [accuracy_scores]. *)
Definition depth_body (X_train X_test : Lib.frame T)
    (y_train y_test : Lib.labels T)
    (s : estimator T * list Q) (depth : Z) : Py T (estimator T * list Q) :=
  let '(_, accuracy_scores) := s in
  clf <- DecisionTreeClassifier (Some 42%Z) (Some depth) ;;
  clf <- fit clf X_train y_train ;;
  y_pred <- predict clf X_test ;;
  accuracy <- f1_score y_test y_pred ;;
  ret (clf, accuracy_scores ++ [accuracy]).

Definition script : Py T (globals T) :=
  (* Import sample data *)
  f <- open "data/abc_classification_modelling.p" "rb" ;;
  data_for_model <- load f ;;
  (* Drop uneccessary columns (inplace) *)
  data_for_model <- drop data_for_model ["customer_id"] ;;
  (* Shuffle data *)
  data_for_model <- shuffle data_for_model (Some 42%Z) ;;
  (* Class balance *)
  signup_flag <- getitem data_for_model "signup_flag" ;;
  value_counts signup_flag true ;;
  (* Deal with missing values *)
  na <- isna data_for_model ;;
  sum na ;;
  data_for_model <- dropna data_for_model ;;
  (* Split Input Variables & Output Variable *)
  X <- drop data_for_model ["signup_flag"] ;;
  y <- getitem data_for_model "signup_flag" ;;
  (* Split Training & Test sets *)
  '(X_train, X_test, y_train, y_test) <-
     train_test_split X y 0.2 (Some 42%Z) y ;;
  (* Deal with Categorical Variables *)
  ohe_enc <- OneHotEncoder None ["gender"] true ;;
  '(ohe_enc, X_train) <- fit_transform ohe_enc X_train ;;
  X_test <- transform ohe_enc X_test ;;
  (* Model Training *)
  clf <- DecisionTreeClassifier (Some 42%Z) (Some 5%Z) ;;
  clf <- fit clf X_train y_train ;;
  (* Model Assessment *)
  y_pred_class <- predict clf X_test ;;
  proba <- predict_proba clf X_test ;;
  y_pred_prob <- column proba 1 ;;
  (* Confusion Matrix *)
  conf_matrix <- confusion_matrix y_test y_pred_class ;;
  pyplot Lib.style_use [Lib.VStr "seaborn-poster"] ;;
  pyplot Lib.matshow [Lib.VMatrix conf_matrix; Lib.VStr "coolwarm"] ;;
  pyplot Lib.gca_xaxis_tick_bottom [] ;;
  pyplot Lib.title [Lib.VStr "Confusion Matrix"] ;;
  pyplot Lib.ylabel [Lib.VStr "Actual Class"] ;;
  pyplot Lib.xlabel [Lib.VStr "Predicted Class"] ;;
  cells <- ndenumerate conf_matrix ;;
  for_each cells (fun '((i, j), corr_value) =>
    pyplot Lib.text [Lib.VInt j; Lib.VInt i; Lib.VInt corr_value]) ;;
  pyplot Lib.show [] ;;
  (* Accuracy, Precision, Recall, F1-Score *)
  accuracy_score y_test y_pred_class ;;
  precision_score y_test y_pred_class ;;
  recall_score y_test y_pred_class ;;
  f1_score y_test y_pred_class ;;
  (* Finding the best max_depth *)
  let max_depth_list := range 1 15 in
  '(clf, accuracy_scores) <-
     for_fold max_depth_list (clf, [])
       (depth_body X_train X_test y_train y_test) ;;
  max_accuracy <- max accuracy_scores ;;
  max_accuracy_idx <- index accuracy_scores max_accuracy ;;
  optimal_depth <- item max_depth_list max_accuracy_idx ;;
  (* Plot of max depths *)
  pyplot Lib.plot [Lib.VInts max_depth_list; Lib.VFloats accuracy_scores] ;;
  pyplot Lib.scatter
    [Lib.VInt optimal_depth; Lib.VFloat max_accuracy; Lib.VStr "x";
     Lib.VStr "red"] ;;
  pyplot Lib.title
    [Lib.VStr "Accuracy (F1 Score) by Max Depth \n Optimal Tree Depth: ";
     Lib.VInt optimal_depth; Lib.VStr " (Accuracy: ";
     Lib.VFloat (Lib.round world max_accuracy 4)] ;;
  pyplot Lib.xlabel [Lib.VStr "Max Depth of Decision Tree"] ;;
  pyplot Lib.ylabel [Lib.VStr "Accuracy (F1 Score)"] ;;
  pyplot Lib.tight_layout [] ;;
  pyplot Lib.show [] ;;
  (* Plot model *)
  pyplot Lib.figure [Lib.VInt 25; Lib.VInt 15] ;;
  tree <- plot_tree clf (Lib.columns world X) ;;
  ret {| data_for_model := data_for_model; X := X; y := y;
         X_train := X_train; X_test := X_test;
         y_train := y_train; y_test := y_test;
         ohe_enc := ohe_enc; clf := clf;
         y_pred_class := y_pred_class; y_pred_prob := y_pred_prob;
         conf_matrix := conf_matrix; max_depth_list := max_depth_list;
         accuracy_scores := accuracy_scores; max_accuracy := max_accuracy;
         max_accuracy_idx := max_accuracy_idx;
         optimal_depth := optimal_depth; tree := tree |}.

End Script.
End ClassificationTreeAdvanced.

(** ** Reading the call log *)

(** The five stages the scripts are described by, and the calls that belong
    to each.  Calls that only reshape data ([drop], [shuffle], [dropna], the
    encoder, [predict]) belong to none. *)
Inductive stage := Load | Split | Fit | Score | Plot.

Definition stage_of (f : fn) : option stage :=
  match f with
  | builtin_open | pickle_load | pd_read_csv => Some Load
  | sk_train_test_split _ => Some Split
  | clf_fit _ _ _ => Some Fit
  | sk_confusion_matrix | sk_accuracy_score | sk_precision_score
  | sk_recall_score | sk_f1_score => Some Score
  | builtin_print | plt _ | sk_plot_tree => Some Plot
  | _ => None
  end.

Definition rank (s : stage) : nat :=
  match s with Load => 0 | Split => 1 | Fit => 2 | Score => 3 | Plot => 4 end.

(** A property of call sequences given by an automaton on the callees. *)
Fixpoint scan {St} (step : St -> fn -> option St) (s : St) (l : list fn)
  : option St :=
  match l with
  | [] => Some s
  | f :: l' =>
      match step s f with
      | Some s' => scan step s' l'
      | None => None
      end
  end.

Definition accepted {St} (step : St -> fn -> option St) (s : St) (l : list fn)
  : bool :=
  match scan step s l with Some _ => true | None => false end.

(** Strict phases: once a stage has run, no call of an earlier stage
    follows.  The state is the rank of the latest stage seen. *)
Definition phase_step (r : nat) (f : fn) : option nat :=
  match stage_of f with
  | None => Some r
  | Some s => if (r <=? rank s)%nat then Some (rank s) else None
  end.

Definition phased (l : list fn) : bool := accepted phase_step 0%nat l.

(** First reached in order: a call of a stage is made only once every stage
    listed before it has run at least once.  The state is the number of
    leading stages that have run. *)
Definition reach_step (n : nat) (f : fn) : option nat :=
  match stage_of f with
  | None => Some n
  | Some s => if (rank s <=? n)%nat then Some (Nat.max n (S (rank s))) else None
  end.

Definition reached_in_order (l : list fn) : bool := accepted reach_step 0%nat l.

(** Model-fitting calls. *)
Definition is_fit (k : estimator_kind) (f : fn) : bool :=
  match f, k with
  | clf_fit LogisticRegressionK _ _, LogisticRegressionK => true
  | clf_fit DecisionTreeClassifierK _ _, DecisionTreeClassifierK => true
  | _, _ => false
  end.

Definition fits (k : estimator_kind) (l : list fn) : nat :=
  List.length (filter (is_fit k) l).

(** The [random_state] a call was given, for the calls that take one. *)
Definition seed_of (f : fn) : option (option Z) :=
  match f with
  | sk_shuffle s | sk_train_test_split s | LogisticRegression_init s
  | DecisionTreeClassifier_init s _ | clf_fit _ s _ => Some s
  | _ => None
  end.

Definition seeded_42 (f : fn) : bool :=
  match seed_of f with
  | Some (Some 42%Z) | None => true
  | Some _ => false
  end.

(** Calls that raised. *)
Definition raised {T} (ev : event T) : bool :=
  match outcome_of ev with Raised _ => true | _ => false end.

(** A run stops at the first call that raises: every logged call but the
    last returned, and the run ends in an exception exactly when the last
    logged call raised it. *)
Definition fail_stop {T A} (m : Py T A) : Prop :=
  match outcome m with
  | Ok _ => Forall (fun ev => raised ev = false) (trace m)
  | Raise e =>
      exists pre ev, trace m = pre ++ [ev]
        /\ Forall (fun ev' => raised ev' = false) pre
        /\ outcome_of ev = Raised e
  end.

(** A score is on display in a log entry when it is among the values the
    entry shows. *)
Definition shows {T} (q : Q) (v : Lib.pyval T) : bool :=
  match v with
  | Lib.VFloat q' => Qeq_bool q' q
  | Lib.VFloats l => existsb (fun q' => Qeq_bool q' q) l
  | _ => false
  end.

Definition displayed {T} (q : Q) (tr : list (event T)) : bool :=
  existsb (fun ev => existsb (shows q) (shown ev)) tr.

(** Every score a metric returned during the run is displayed by some print
    or plot call of the run. *)
Definition metrics_displayed {T} (tr : list (event T)) : bool :=
  forallb (fun ev =>
             match outcome_of ev with
             | ReturnedScore q => displayed q tr
             | _ => true
             end) tr.

(** The log with the returned scores forgotten: what was called, in which
    order, what was put on display, and what raised. *)
Definition forget_score {T} (ev : event T) : event T :=
  match outcome_of ev with
  | ReturnedScore _ => Ev (callee ev) (shown ev) Returned
  | _ => ev
  end.

Definition visible {T} (tr : list (event T)) : list (event T) :=
  map forget_score tr.

Definition same_failure {A} (r r' : result A) : Prop :=
  match r, r' with
  | Ok _, Ok _ => True
  | Raise e, Raise e' => e = e'
  | _, _ => False
  end.

(** A world whose accuracy, precision and recall functions are replaced. *)
Definition with_metrics {T} (W : Lib.World T)
    (acc prec rec : Lib.labels T -> Lib.labels T -> result Q) : Lib.World T :=
  {| Lib.open := Lib.open W; Lib.print := Lib.print W; Lib.round := Lib.round W;
     Lib.load := Lib.load W; Lib.read_csv := Lib.read_csv W;
     Lib.drop := Lib.drop W; Lib.getitem := Lib.getitem W;
     Lib.value_counts := Lib.value_counts W; Lib.isna := Lib.isna W;
     Lib.sum := Lib.sum W; Lib.dropna := Lib.dropna W;
     Lib.columns := Lib.columns W; Lib.shuffle := Lib.shuffle W;
     Lib.train_test_split := Lib.train_test_split W; Lib.fit := Lib.fit W;
     Lib.predict := Lib.predict W; Lib.predict_proba := Lib.predict_proba W;
     Lib.column := Lib.column W; Lib.plot_tree := Lib.plot_tree W;
     Lib.confusion_matrix := Lib.confusion_matrix W;
     Lib.accuracy_score := acc; Lib.precision_score := prec;
     Lib.recall_score := rec; Lib.f1_score := Lib.f1_score W;
     Lib.ohe_fit := Lib.ohe_fit W; Lib.ohe_transform := Lib.ohe_transform W;
     Lib.ndenumerate := Lib.ndenumerate W; Lib.pyplot := Lib.pyplot W |}.

(** ** Statements about runs *)

(** From state [s] the calls of [m] are accepted by the automaton, and a
    run that completes leaves it in [s1]. *)
Definition leads {T St A} (step : St -> fn -> option St)
    (s : St) (m : Py T A) (s1 : St) : Prop :=
  exists s', scan step s (calls m) = Some s'
             /\ (is_ok (outcome m) = true -> s' = s1).

(** Counting the fits of one kind, as an automaton. *)
Definition count_step (k : estimator_kind) (n : nat) (f : fn) : option nat :=
  Some (if is_fit k f then S n else n).

(** The model-fitting calls of a log, in order: the kind and the
    [max_depth] of the estimator each [fit] was called on. *)
Definition fit_calls (l : list fn) : list (estimator_kind * option Z) :=
  flat_map (fun f => match f with
                     | clf_fit k _ d => [(k, d)]
                     | _ => []
                     end) l.

Definition fit_calls_step (acc : list (estimator_kind * option Z)) (f : fn)
  : option (list (estimator_kind * option Z)) :=
  match f with
  | clf_fit k _ d => Some (acc ++ [(k, d)])
  | _ => Some acc
  end.

(** Rejecting a call that fails [p]. *)
Definition guard_step (p : fn -> bool) (u : unit) (f : fn) : option unit :=
  if p f then Some u else None.

(** The score the depth search records for [depth]: the F1 score, on the
    test set, of a tree of that depth fitted on the training set. *)
Definition scored_at {T} (W : Lib.World T) (X_train X_test : Lib.frame T)
    (y_train y_test : Lib.labels T) (depth : Z) (score : Q) : Prop :=
  exists m y_pred,
    Lib.fit W DecisionTreeClassifierK (Some depth) (Lib.Seeded 42)
      X_train y_train = Ok m
    /\ Lib.predict W m X_test = Ok y_pred
    /\ Lib.f1_score W y_test y_pred = Ok score.

(** A run that completes does so with a result and a log satisfying [Q]. *)
Definition ensures {T A} (m : Py T A) (Q : A -> list (event T) -> Prop) : Prop :=
  forall a, outcome m = Ok a -> Q a (trace m).

(** Two runs that an observer of the calls and the display cannot tell
    apart: same result, same log up to the scores returned. *)
Definition sim {T A} (m1 m2 : Py T A) : Prop :=
  outcome m1 = outcome m2 /\ visible (trace m1) = visible (trace m2).

(** ** A small concrete world

    Ten rows with a binary target, a deterministic stand-in for every
    library call, and real counting for the metrics.  It is used to run the
    scripts on. *)

Module Sample.

Definition types : Lib.PyTypes :=
  {| Lib.frame := list Z;          (* the row ids; columns are implicit *)
     Lib.labels := list Z;
     Lib.summary := unit;
     Lib.probs := list Q;
     Lib.matrix := list (list Z);
     Lib.model := option Z;        (* the max_depth the model was fitted with *)
     Lib.encoding := list string;
     Lib.file := string;
     Lib.axes := unit;
     Lib.entropy := nat |}.

Definition rows : list Z := range 1 11.
Definition label (row : Z) : Z := (row mod 2)%Z.

Definition rotate {A} (n : nat) (l : list A) : list A := skipn n l ++ firstn n l.

(** A seeded generator always produces the same order; the process-wide
    one produces an order that depends on its state. *)
Definition permute {A} (g : Lib.rng types) (l : list A) : list A :=
  match g with
  | Lib.Seeded _ => rev l
  | Lib.Ambient e => rotate e l
  end.

Definition split (g : Lib.rng types) (test_size : Q)
    (X : list Z) (y stratify : list Z)
  : result (list Z * list Z * list Z * list Z) :=
  Ok (skipn 2 (permute g X), firstn 2 (permute g X),
      skipn 2 (permute g y), firstn 2 (permute g y)).

(** Shallow trees and the logistic model predict class 1 throughout;
    trees of depth 3 and more recover the label. *)
Definition predict (m : option Z) (X : list Z) : result (list Z) :=
  Ok (map (fun row =>
             match m with
             | Some d => if (d <? 3)%Z then 1%Z else label row
             | None => 1%Z
             end) X).

Definition tally (t p : Z) (y_true y_pred : list Z) : nat :=
  List.length
    (filter (fun tp => ((fst tp =? t)%Z && (snd tp =? p)%Z)%bool)
       (combine y_true y_pred)).

Definition ratio (n d : nat) : Q :=
  match d with
  | O => 0
  | S _ => Z.of_nat n # Pos.of_nat d
  end.

Definition confusion (y_true y_pred : list Z) : result (list (list Z)) :=
  Ok [[Z.of_nat (tally 0 0 y_true y_pred); Z.of_nat (tally 0 1 y_true y_pred)];
      [Z.of_nat (tally 1 0 y_true y_pred); Z.of_nat (tally 1 1 y_true y_pred)]].

Definition accuracy (y_true y_pred : list Z) : result Q :=
  Ok (ratio (tally 0 0 y_true y_pred + tally 1 1 y_true y_pred)
        (List.length y_true)).
Definition precision (y_true y_pred : list Z) : result Q :=
  Ok (ratio (tally 1 1 y_true y_pred)
        (tally 1 1 y_true y_pred + tally 0 1 y_true y_pred)).
Definition recall (y_true y_pred : list Z) : result Q :=
  Ok (ratio (tally 1 1 y_true y_pred)
        (tally 1 1 y_true y_pred + tally 1 0 y_true y_pred)).
Definition f1 (y_true y_pred : list Z) : result Q :=
  Ok (ratio (2 * tally 1 1 y_true y_pred)
        (2 * tally 1 1 y_true y_pred + tally 0 1 y_true y_pred
         + tally 1 0 y_true y_pred)).

Definition enumerate_row (i : Z) (r : list Z) : list ((Z * Z) * Z) :=
  map (fun jv => ((i, Z.of_nat (fst jv)), snd jv))
    (combine (seq 0 (List.length r)) r).

Definition enumerate (m : list (list Z)) : list ((Z * Z) * Z) :=
  flat_map (fun ir => enumerate_row (Z.of_nat (fst ir)) (snd ir))
    (combine (seq 0 (List.length m)) m).

(** [present] says whether the data files exist. *)
Definition libs (present : bool) : Lib.World types :=
  {| Lib.open := fun path _ =>
       if present then Ok path else Raise "FileNotFoundError";
     Lib.print := fun _ => Ok tt;
     Lib.round := fun q _ => q;
     Lib.load := fun _ => Ok rows;
     Lib.read_csv := fun _ =>
       if present then Ok rows else Raise "FileNotFoundError";
     Lib.drop := fun df _ => Ok df;
     Lib.getitem := fun df _ => Ok (map label df);
     Lib.value_counts := fun _ _ => Ok tt;
     Lib.isna := fun df => Ok df;
     Lib.sum := fun _ => Ok tt;
     Lib.dropna := fun df => Ok df;
     Lib.columns := fun _ => ["age"; "gender"];
     Lib.shuffle := fun g df => Ok (permute g df);
     Lib.train_test_split := split;
     Lib.fit := fun _ depth _ _ _ => Ok depth;
     Lib.predict := predict;
     Lib.predict_proba := fun _ X => Ok (map (fun _ => 1 # 2) X);
     Lib.column := fun a _ => Ok a;
     Lib.plot_tree := fun _ _ => Ok tt;
     Lib.confusion_matrix := confusion;
     Lib.accuracy_score := accuracy;
     Lib.precision_score := precision;
     Lib.recall_score := recall;
     Lib.f1_score := f1;
     Lib.ohe_fit := fun _ _ => Ok ["gender_M"];
     Lib.ohe_transform := fun _ X => Ok X;
     Lib.ndenumerate := enumerate;
     Lib.pyplot := fun _ _ => Ok tt |}.

Definition runtime (present : bool) (e : nat) : Runtime types :=
  {| world := libs present; ambient := e |}.

End Sample.

(** ** Further statements about runs *)

(** The annotations of the confusion-matrix plot: the [plt.text] calls. *)
Definition is_text (f : fn) : bool :=
  match f with
  | plt Lib.text => true
  | _ => false
  end.

Definition annotations {T} (tr : list (event T)) : list (event T) :=
  filter (fun ev => is_text (callee ev)) tr.

(** [plt.text(j, i, corr_value, ...)] for the cell [(i, j)], once it has
    returned. *)
Definition annotation {T} (cell : (Z * Z) * Z) : event T :=
  Ev (plt Lib.text)
    [Lib.VInt (snd (fst cell)); Lib.VInt (fst (fst cell)); Lib.VInt (snd cell)]
    Returned.

(** The methods that need a fitted object. *)
Definition needs_fitted (f : fn) : bool :=
  match f with
  | clf_predict | clf_predict_proba | sk_plot_tree | ohe_transform => true
  | _ => false
  end.

(** A method that needs a fitted object did not fail for want of one. *)
Definition not_unfitted {T} (ev : event T) : Prop :=
  needs_fitted (callee ev) = true -> outcome_of ev <> Raised "NotFittedError".

(** The library itself does not answer NotFittedError: a fitted model or
    encoding is accepted by the methods that use it. *)
Definition accepts_fitted {T} (W : Lib.World T) : Prop :=
  (forall m X, Lib.predict W m X <> Raise "NotFittedError")
  /\ (forall m X, Lib.predict_proba W m X <> Raise "NotFittedError")
  /\ (forall m names, Lib.plot_tree W m names <> Raise "NotFittedError")
  /\ (forall enc X, Lib.ohe_transform W enc X <> Raise "NotFittedError").

(** The builtins of the selection step: [max], [list.index], [l[i]]. *)
Definition is_selection (f : fn) : bool :=
  match f with
  | builtin_max | builtin_index | builtin_getitem => true
  | _ => false
  end.

(** Every call the run has logged is [good], and a run that completes
    returns a value satisfying [Q]. *)
Definition throughout {T A} (good : event T -> Prop) (m : Py T A)
    (Q : A -> Prop) : Prop :=
  Forall good (trace m) /\ forall a, outcome m = Ok a -> Q a.

(** A selection builtin that was called returned. *)
Definition selection_returned {T} (ev : event T) : Prop :=
  is_selection (callee ev) = true -> raised ev = false.

(** A depth curve that was plotted has one point per depth 1, ..., 14. *)
Definition depth_curve_complete {T} (ev : event T) : Prop :=
  callee ev = plt Lib.plot ->
  exists scores,
    shown ev = [Lib.VInts (range 1 15); Lib.VFloats scores]
    /\ List.length scores = 14%nat.

(** A world whose [value_counts] and [sum] are replaced. *)
Definition with_summaries {T} (W : Lib.World T)
    (vc : Lib.labels T -> bool -> result (Lib.summary T))
    (sm : Lib.frame T -> result (Lib.summary T)) : Lib.World T :=
  {| Lib.open := Lib.open W; Lib.print := Lib.print W; Lib.round := Lib.round W;
     Lib.load := Lib.load W; Lib.read_csv := Lib.read_csv W;
     Lib.drop := Lib.drop W; Lib.getitem := Lib.getitem W;
     Lib.value_counts := vc; Lib.isna := Lib.isna W;
     Lib.sum := sm; Lib.dropna := Lib.dropna W;
     Lib.columns := Lib.columns W; Lib.shuffle := Lib.shuffle W;
     Lib.train_test_split := Lib.train_test_split W; Lib.fit := Lib.fit W;
     Lib.predict := Lib.predict W; Lib.predict_proba := Lib.predict_proba W;
     Lib.column := Lib.column W; Lib.plot_tree := Lib.plot_tree W;
     Lib.confusion_matrix := Lib.confusion_matrix W;
     Lib.accuracy_score := Lib.accuracy_score W;
     Lib.precision_score := Lib.precision_score W;
     Lib.recall_score := Lib.recall_score W; Lib.f1_score := Lib.f1_score W;
     Lib.ohe_fit := Lib.ohe_fit W; Lib.ohe_transform := Lib.ohe_transform W;
     Lib.ndenumerate := Lib.ndenumerate W; Lib.pyplot := Lib.pyplot W |}.

(** * Reasoning about runs *)

Section Runs.
Context {T : Lib.PyTypes}.

Lemma outcome_bind {A B} (m : Py T A) (k : A -> Py T B) :
  outcome (bind m k) =
  match outcome m with
  | Ok a => outcome (k a)
  | Raise e => Raise e
  end.
Proof.
  destruct m as [[a|e] t]; cbn; [destruct (k a) | ]; reflexivity.
Qed.

Lemma trace_bind {A B} (m : Py T A) (k : A -> Py T B) :
  trace (bind m k) =
  trace m ++ match outcome m with
             | Ok a => trace (k a)
             | Raise _ => []
             end.
Proof.
  destruct m as [[a|e] t]; cbn; [destruct (k a) | rewrite app_nil_r]; reflexivity.
Qed.

Lemma calls_bind {A B} (m : Py T A) (k : A -> Py T B) :
  calls (bind m k) =
  calls m ++ match outcome m with
             | Ok a => calls (k a)
             | Raise _ => []
             end.
Proof.
  unfold calls. rewrite trace_bind, map_app.
  destruct (outcome m); reflexivity.
Qed.

(** ** Call sequences accepted by an automaton *)

Section Automaton.
Context {St : Type} (step : St -> fn -> option St).

Lemma scan_app (s : St) (l1 l2 : list fn) :
  scan step s (l1 ++ l2) =
  match scan step s l1 with
  | Some s' => scan step s' l2
  | None => None
  end.
Proof.
  revert s. induction l1 as [|f l1 IH]; intros s; cbn; [reflexivity|].
  destruct (step s f); [apply IH | reflexivity].
Qed.

Lemma leads_ret {A} (s : St) (a : A) : leads step s (ret (T := T) a) s.
Proof. exists s. split; reflexivity. Qed.

Lemma leads_event {A} (s s1 : St) (f : fn) args o (r : result A) :
  step s f = Some s1 -> leads step s (r, [Ev (T := T) f args o]) s1.
Proof.
  intros H. exists s1. cbn. rewrite H. split; reflexivity.
Qed.

Lemma leads_bind {A B} (s s1 s2 : St) (m : Py T A) (k : A -> Py T B) :
  leads step s m s1 ->
  (forall a, outcome m = Ok a -> leads step s1 (k a) s2) ->
  leads step s (bind m k) s2.
Proof.
  intros (s' & Hs & Hok) Hk.
  unfold leads. rewrite calls_bind, outcome_bind, scan_app, Hs.
  destruct (outcome m) as [a|e].
  - rewrite (Hok eq_refl). apply Hk. reflexivity.
  - exists s'. split; [reflexivity | discriminate].
Qed.

Lemma leads_for_fold {A S} (upd : St -> A -> St)
    (body : S -> A -> Py T S) :
  (forall s st x, leads step s (body st x) (upd s x)) ->
  forall l s st, leads step s (for_fold l st body) (fold_left upd l s).
Proof.
  intros Hbody. induction l as [|x l IH]; intros s st; cbn [for_fold fold_left].
  - apply leads_ret.
  - eapply leads_bind; [apply Hbody | intros st' _; apply IH].
Qed.

Lemma leads_for_fold_inv {A S} (s : St) (body : S -> A -> Py T S) :
  (forall st x, leads step s (body st x) s) ->
  forall l st, leads step s (for_fold l st body) s.
Proof.
  intros Hbody. induction l as [|x l IH]; intros st; cbn [for_fold].
  - apply leads_ret.
  - eapply leads_bind; [apply Hbody | intros st' _; apply IH].
Qed.

Lemma leads_for_each {A} (s : St) (body : A -> Py T unit) :
  (forall x, leads step s (body x) s) ->
  forall l, leads step s (for_each l body) s.
Proof.
  intros Hbody. induction l as [|x l IH]; cbn [for_each].
  - apply leads_ret.
  - eapply leads_bind; [apply Hbody | intros _ _; apply IH].
Qed.

Lemma leads_accepted {A} (s s1 : St) (m : Py T A) :
  leads step s m s1 -> accepted step s (calls m) = true.
Proof.
  intros (s' & Hs & _). unfold accepted. rewrite Hs. reflexivity.
Qed.

Lemma leads_final {A} (s s1 : St) (m : Py T A) (a : A) :
  leads step s m s1 -> outcome m = Ok a -> scan step s (calls m) = Some s1.
Proof.
  intros (s' & Hs & Hok) Ha. rewrite Ha in Hok.
  rewrite Hs, (Hok eq_refl). reflexivity.
Qed.

End Automaton.

End Runs.

(** The value a statement returned, when the statement is a constructor
    call. *)
Ltac leads_intro :=
  let a := fresh "v" in
  let H := fresh "E" in
  intros a H;
  first [ cbn in H; injection H as <- | clear H ].

(** One statement of a script, for an automaton on the callees; [loop]
    deals with the depth search. *)
Ltac leads_step_with loop :=
  cbv beta;
  lazymatch goal with
  | |- leads _ _ (bind _ _) _ => eapply leads_bind; [ | leads_intro ]
  | |- leads _ _ (ret _) _ => apply leads_ret
  | |- leads _ _ (for_each _ _) _ => apply leads_for_each; intros ?
  | |- leads _ _ (for_fold _ _ _) _ => loop
  | |- leads _ _ (let '(_, _) := ?p in _) _ => destruct p
  | |- leads _ _ (Call.fit _ _ _) _ => unfold Call.fit
  | |- leads _ _ (Call.plot_tree ?c _) _ =>
      unfold Call.plot_tree; destruct (learned c)
  | |- leads _ _ _ _ => eapply leads_event; cbv; reflexivity
  end.

Ltac leads_step :=
  leads_step_with
    ltac:(apply leads_for_fold_inv; intros [? ?] ?;
          unfold ClassificationTreeAdvanced.depth_body).

Lemma phased_logistic {T} (R : Runtime T) :
  phased (calls (LogisticRegressionBasic.script (R := R))) = true.
Proof.
  unfold phased. eapply leads_accepted.
  unfold LogisticRegressionBasic.script.
  repeat leads_step.
Qed.

Lemma reached_in_order_logistic {T} (R : Runtime T) :
  reached_in_order (calls (LogisticRegressionBasic.script (R := R))) = true.
Proof.
  unfold reached_in_order. eapply leads_accepted.
  unfold LogisticRegressionBasic.script.
  repeat leads_step.
Qed.

Lemma reached_in_order_tree {T} (R : Runtime T) :
  reached_in_order (calls (ClassificationTreeAdvanced.script (R := R))) = true.
Proof.
  unfold reached_in_order. eapply leads_accepted.
  unfold ClassificationTreeAdvanced.script.
  repeat leads_step.
Qed.

(** ** Runs stop at the first exception *)

Section FailStop.
Context {T : Lib.PyTypes}.

Lemma fail_stop_ret {A} (a : A) : fail_stop (T := T) (ret a).
Proof. constructor. Qed.

Lemma fail_stop_call {A} (f : fn) (r : result A) : fail_stop (T := T) (call f r).
Proof.
  destruct r as [a|e]; cbn.
  - repeat constructor.
  - exists [], (Ev f [] (Raised e)). repeat split. constructor.
Qed.

Lemma fail_stop_metric (f : fn) (r : result Q) : fail_stop (T := T) (metric f r).
Proof.
  destruct r as [a|e]; cbn.
  - repeat constructor.
  - exists [], (Ev f [] (Raised e)). repeat split. constructor.
Qed.

Lemma fail_stop_display {A} (f : fn) args (r : result A) :
  fail_stop (T := T) (display f args r).
Proof.
  destruct r as [a|e]; cbn.
  - repeat constructor.
  - exists [], (Ev f args (Raised e)). repeat split. constructor.
Qed.

Lemma fail_stop_bind {A B} (m : Py T A) (k : A -> Py T B) :
  fail_stop m -> (forall a, fail_stop (k a)) -> fail_stop (bind m k).
Proof.
  unfold fail_stop. intros Hm Hk.
  rewrite outcome_bind, trace_bind.
  destruct (outcome m) as [a|e].
  - specialize (Hk a). destruct (outcome (k a)) as [b|e].
    + apply Forall_app. split; assumption.
    + destruct Hk as (pre & ev & Ht & Hpre & Hev).
      exists (trace m ++ pre), ev. rewrite Ht, app_assoc.
      repeat split; [ | assumption].
      apply Forall_app. split; assumption.
  - rewrite app_nil_r. assumption.
Qed.

Lemma fail_stop_for_each {A} (body : A -> Py T unit) :
  (forall x, fail_stop (body x)) -> forall l, fail_stop (for_each l body).
Proof.
  intros Hbody. induction l as [|x l IH]; cbn [for_each].
  - apply fail_stop_ret.
  - apply fail_stop_bind; [apply Hbody | intros _; apply IH].
Qed.

Lemma fail_stop_for_fold {A S} (body : S -> A -> Py T S) :
  (forall st x, fail_stop (body st x)) ->
  forall l st, fail_stop (for_fold l st body).
Proof.
  intros Hbody. induction l as [|x l IH]; intros st; cbn [for_fold].
  - apply fail_stop_ret.
  - apply fail_stop_bind; [apply Hbody | intros st'; apply IH].
Qed.

End FailStop.

Ltac fail_stop_step :=
  cbv beta;
  lazymatch goal with
  | |- fail_stop (bind _ _) => apply fail_stop_bind; [ | intros ? ]
  | |- fail_stop (ret _) => apply fail_stop_ret
  | |- fail_stop (for_each _ _) => apply fail_stop_for_each; intros ?
  | |- fail_stop (for_fold _ _ _) =>
      apply fail_stop_for_fold; intros [? ?] ?;
      unfold ClassificationTreeAdvanced.depth_body
  | |- fail_stop (let '(_, _) := ?p in _) => destruct p
  | |- fail_stop (Call.fit _ _ _) => unfold Call.fit
  | |- fail_stop (Call.plot_tree ?c _) =>
      unfold Call.plot_tree; destruct (learned c)
  | |- fail_stop _ =>
      first [ apply fail_stop_call | apply fail_stop_metric
            | apply fail_stop_display ]
  end.

Lemma fail_stop_logistic {T} (R : Runtime T) :
  fail_stop (LogisticRegressionBasic.script (R := R)).
Proof.
  unfold LogisticRegressionBasic.script. repeat fail_stop_step.
Qed.

Lemma fail_stop_tree {T} (R : Runtime T) :
  fail_stop (ClassificationTreeAdvanced.script (R := R)).
Proof.
  unfold ClassificationTreeAdvanced.script. repeat fail_stop_step.
Qed.

(** ** Runs that differ only in scores nobody looks at *)

Section Indistinguishable.
Context {T : Lib.PyTypes}.

Lemma sim_refl {A} (m : Py T A) : sim m m.
Proof. split; reflexivity. Qed.

Lemma sim_bind {A B} (m1 m2 : Py T A) (k1 k2 : A -> Py T B) :
  sim m1 m2 -> (forall a, sim (k1 a) (k2 a)) -> sim (bind m1 k1) (bind m2 k2).
Proof.
  unfold sim, visible. intros [Ho Ht] Hk.
  rewrite !outcome_bind, !trace_bind, !map_app, Ho, Ht.
  destruct (outcome m2) as [a|e].
  - destruct (Hk a) as [Hoa Hta]. rewrite Hoa, Hta. split; reflexivity.
  - split; reflexivity.
Qed.

(** A metric whose score is dropped may return any score. *)
Lemma sim_metric {B} (f : fn) (r1 r2 : result Q) (k1 k2 : Py T B) :
  same_failure r1 r2 -> sim k1 k2 ->
  sim (bind (metric f r1) (fun _ => k1)) (bind (metric f r2) (fun _ => k2)).
Proof.
  unfold sim, visible. intros Hr [Ho Ht].
  rewrite !outcome_bind, !trace_bind, !map_app.
  destruct r1 as [q1|e1], r2 as [q2|e2]; cbn in Hr; try contradiction.
  - cbn. rewrite Ho, Ht. split; reflexivity.
  - subst e2. cbn. split; reflexivity.
Qed.

End Indistinguishable.

Ltac sim_step Hacc Hprec Hrec :=
  cbv beta;
  lazymatch goal with
  | |- sim (bind (Call.accuracy_score _ _) _) _ =>
      apply sim_metric; [apply Hacc | ]
  | |- sim (bind (Call.precision_score _ _) _) _ =>
      apply sim_metric; [apply Hprec | ]
  | |- sim (bind (Call.recall_score _ _) _) _ =>
      apply sim_metric; [apply Hrec | ]
  | |- sim (bind _ _) _ => apply sim_bind; [apply sim_refl | intros ? ]
  | |- sim (let '(_, _) := ?p in _) _ => destruct p
  | |- sim _ _ => apply sim_refl
  end.

Section DroppedScores.
Context {T : Lib.PyTypes} (W : Lib.World T) (e : Lib.entropy T).
Context (acc prec rec : Lib.labels T -> Lib.labels T -> result Q).
Hypothesis Hacc : forall a b, same_failure (acc a b) (Lib.accuracy_score W a b).
Hypothesis Hprec : forall a b, same_failure (prec a b) (Lib.precision_score W a b).
Hypothesis Hrec : forall a b, same_failure (rec a b) (Lib.recall_score W a b).

Lemma sim_logistic :
  sim (LogisticRegressionBasic.script
         (R := {| world := with_metrics W acc prec rec; ambient := e |}))
      (LogisticRegressionBasic.script (R := {| world := W; ambient := e |})).
Proof.
  unfold LogisticRegressionBasic.script.
  repeat sim_step Hacc Hprec Hrec.
Qed.

Lemma sim_tree :
  sim (ClassificationTreeAdvanced.script
         (R := {| world := with_metrics W acc prec rec; ambient := e |}))
      (ClassificationTreeAdvanced.script (R := {| world := W; ambient := e |})).
Proof.
  unfold ClassificationTreeAdvanced.script.
  repeat sim_step Hacc Hprec Hrec.
Qed.

End DroppedScores.

(** ** What a completed run has established *)

Section Ensures.
Context {T : Lib.PyTypes}.

Lemma ensures_ret {A} (a : A) (Q : A -> list (event T) -> Prop) :
  Q a [] -> ensures (ret a) Q.
Proof. intros H a' [= <-]. exact H. Qed.

Lemma ensures_call {A} (f : fn) (r : result A) (Q : A -> list (event T) -> Prop) :
  (forall a, r = Ok a -> Q a [Ev f [] Returned]) -> ensures (call f r) Q.
Proof. intros H a Ha. cbn in Ha. subst r. apply (H a eq_refl). Qed.

Lemma ensures_metric (f : fn) (r : result Q) (P : Q -> list (event T) -> Prop) :
  (forall q, r = Ok q -> P q [Ev f [] (ReturnedScore q)]) ->
  ensures (metric f r) P.
Proof. intros H a Ha. cbn in Ha. subst r. apply (H a eq_refl). Qed.

Lemma ensures_display {A} (f : fn) args (r : result A)
    (Q : A -> list (event T) -> Prop) :
  (forall a, r = Ok a -> Q a [Ev f args Returned]) ->
  ensures (display f args r) Q.
Proof. intros H a Ha. cbn in Ha. subst r. apply (H a eq_refl). Qed.

Lemma ensures_bind {A B} (m : Py T A) (k : A -> Py T B)
    (Q : B -> list (event T) -> Prop) :
  ensures m (fun a t1 => ensures (k a) (fun b t2 => Q b (t1 ++ t2))) ->
  ensures (bind m k) Q.
Proof.
  intros H b Hb. rewrite outcome_bind in Hb. rewrite trace_bind.
  destruct (outcome m) as [a|e] eqn:Hm; [ | discriminate].
  exact (H a Hm b Hb).
Qed.

Lemma ensures_weaken {A} (m : Py T A) (P Q : A -> list (event T) -> Prop) :
  ensures m P -> (forall a t, P a t -> Q a t) -> ensures m Q.
Proof. intros H HPQ a Ha. apply HPQ, H, Ha. Qed.

Lemma ensures_any {A} (m : Py T A) (Q : A -> list (event T) -> Prop) :
  (forall a t, Q a t) -> ensures m Q.
Proof. intros H a _. apply H. Qed.

(** A loop invariant over the items already visited. *)
Lemma ensures_for_fold {A S} (Inv : list A -> S -> Prop)
    (body : S -> A -> Py T S) :
  (forall seen x s, Inv seen s ->
     ensures (body s x) (fun s' _ => Inv (seen ++ [x]) s')) ->
  forall l seen s, Inv seen s ->
    ensures (for_fold l s body) (fun s' _ => Inv (seen ++ l) s').
Proof.
  intros Hbody. induction l as [|x l IH]; intros seen s Hs; cbn [for_fold].
  - apply ensures_ret. rewrite app_nil_r. exact Hs.
  - apply ensures_bind.
    eapply ensures_weaken; [apply (Hbody seen x s Hs) | ].
    intros s' t' Hs'. cbv beta in *.
    eapply ensures_weaken; [apply (IH (seen ++ [x]) s' Hs') | ].
    intros s'' t'' Hs''. cbv beta in *.
    rewrite <- app_assoc in Hs''. exact Hs''.
Qed.

End Ensures.

(** Inverting a [fit_transform] that returned. *)
Lemma fit_transform_returned {T} (W : Lib.World T) (p : Lib.ohe_params)
    (X : Lib.frame T) (r : encoder T * Lib.frame T) :
  match Lib.ohe_fit W p X with
  | Ok e =>
      match Lib.ohe_transform W e X with
      | Ok X' => Ok ({| params := p; encoder_dict_ := Some e |}, X')
      | Raise x => Raise x
      end
  | Raise x => Raise x
  end = Ok r ->
  exists e X', Lib.ohe_fit W p X = Ok e
               /\ Lib.ohe_transform W e X = Ok X'
               /\ r = ({| params := p; encoder_dict_ := Some e |}, X').
Proof.
  destruct (Lib.ohe_fit W p X) as [e|x]; [ | discriminate].
  destruct (Lib.ohe_transform W e X) as [X''|x] eqn:Ht; [ | discriminate].
  intros H. injection H as <-. exists e, X''. auto.
Qed.

(** Naming the value a statement returned, with the equation that
    produced it. *)
Ltac ensures_intro :=
  let a := fresh "v" in
  let H := fresh "E" in
  intros a H;
  try discriminate H;
  try (injection H as <-);
  cbn [params kind max_depth random_state learned encoder_dict_
       Call.check_random_state] in *;
  try (apply fit_transform_returned in H;
       destruct H as (? & ? & ? & ? & ->)).

(** One statement of a completed run; [loop] deals with the depth search. *)
Ltac ensures_step_with loop :=
  cbv beta;
  lazymatch goal with
  | |- ensures (bind _ _) _ => apply ensures_bind
  | |- ensures (ret _) _ => apply ensures_ret
  | |- ensures (for_each _ _) _ => apply ensures_any; intros ? ?
  | |- ensures (for_fold _ _ _) _ => loop
  | |- ensures (let '(_, _) := ?p in _) _ => destruct p
  | |- ensures (Call.fit _ _ _) _ => unfold Call.fit
  | |- ensures (Call.plot_tree ?c _) _ =>
      unfold Call.plot_tree; cbn [learned]
  | |- ensures (Call.predict _ _) _ =>
      unfold Call.predict; cbn [learned]; apply ensures_call; ensures_intro
  | |- ensures (Call.predict_proba _ _) _ =>
      unfold Call.predict_proba; cbn [learned]; apply ensures_call;
      ensures_intro
  | |- ensures (Call.transform _ _) _ =>
      unfold Call.transform; cbn [encoder_dict_]; apply ensures_call;
      ensures_intro
  | |- ensures (match ?c with Some _ => _ | None => _ end) _ =>
      destruct c eqn:?
  | |- ensures _ _ =>
      first [ apply ensures_call | apply ensures_metric
            | apply ensures_display ]; ensures_intro
  end.

(** Nothing is needed from the depth search. *)
Ltac ensures_step :=
  ensures_step_with ltac:(apply ensures_any; intros [? ?] ?).

(** The encoder of a completed run of the tree script. *)
Lemma tree_encoder_facts {T} (R : Runtime T) :
  ensures (ClassificationTreeAdvanced.script (R := R))
    (fun g _ =>
       exists X_train0 X_test0 enc,
         Lib.train_test_split world (Lib.Seeded 42) 0.2
           (ClassificationTreeAdvanced.X g) (ClassificationTreeAdvanced.y g)
           (ClassificationTreeAdvanced.y g)
         = Ok (X_train0, X_test0, ClassificationTreeAdvanced.y_train g,
               ClassificationTreeAdvanced.y_test g)
         /\ Lib.ohe_fit world
              {| Lib.top_categories := None; Lib.variables := ["gender"];
                 Lib.drop_last := true |} X_train0 = Ok enc
         /\ encoder_dict_ (ClassificationTreeAdvanced.ohe_enc g) = Some enc
         /\ Lib.ohe_transform world enc X_train0
            = Ok (ClassificationTreeAdvanced.X_train g)
         /\ Lib.ohe_transform world enc X_test0
            = Ok (ClassificationTreeAdvanced.X_test g)).
Proof.
  unfold ClassificationTreeAdvanced.script.
  repeat ensures_step.
  cbn. eauto 10.
Qed.

(** ** [max], [index] and [range] *)

Lemma fold_max_spec (l : list Q) (m : Q) :
  let r := fold_left (fun m item => if Qgtb item m then item else m) l m in
  m <= r /\ Forall (fun x => x <= r) l /\ (r = m \/ In r l).
Proof.
  revert m. induction l as [|x l IH]; intros m; cbn.
  - repeat split; [apply Qle_refl | constructor | now left].
  - destruct (IH (if Qgtb x m then x else m)) as (Hle & Hall & Hin).
    unfold Qgtb in *.
    destruct (Qle_bool x m) eqn:Hxm; cbn [negb] in *.
    + apply Qle_bool_iff in Hxm. repeat split.
      * exact Hle.
      * constructor; [eapply Qle_trans; eassumption | exact Hall].
      * destruct Hin as [-> | Hin]; [now left | right; now right].
    + assert (Hlt : m < x).
      { apply Qnot_le_lt. intros H. apply Qle_bool_iff in H. congruence. }
      repeat split.
      * eapply Qle_trans; [apply Qlt_le_weak, Hlt | exact Hle].
      * constructor; assumption.
      * right. destruct Hin as [-> | Hin]; [now left | now right].
Qed.

Lemma max_list_spec (l : list Q) (m : Q) :
  max_list l = Ok m -> In m l /\ Forall (fun x => x <= m) l.
Proof.
  destruct l as [|x l]; cbn; [discriminate | intros [= <-]].
  destruct (fold_max_spec l x) as (Hle & Hall & Hin). split.
  - destruct Hin as [-> | Hin]; [now left | now right].
  - constructor; assumption.
Qed.

Lemma index_list_spec (l : list Q) (x : Q) (i : nat) :
  index_list l x = Ok i ->
  exists s, nth_error l i = Some s /\ s == x
            /\ forall j sj, (j < i)%nat -> nth_error l j = Some sj -> ~ sj == x.
Proof.
  revert i. induction l as [|item l IH]; intros i; cbn; [discriminate|].
  destruct (Qeq_bool item x) eqn:Heq.
  - intros [= <-]. exists item. repeat split.
    + apply Qeq_bool_iff, Heq.
    + intros j sj Hj. inversion Hj.
  - destruct (index_list l x) as [i'|e]; [ | discriminate].
    intros [= <-]. destruct (IH i' eq_refl) as (s & Hs & Hsx & Hfirst).
    exists s. repeat split; [exact Hs | exact Hsx | ].
    intros [|j] sj Hj Hnth; cbn in Hnth.
    + injection Hnth as <-. apply Qeq_bool_neq, Heq.
    + apply (Hfirst j sj); [lia | exact Hnth].
Qed.

Lemma range_item (a b : Z) (i : nat) (d : Z) :
  getitem_list (range a b) i = Ok d ->
  d = (a + Z.of_nat i)%Z /\ (i < Z.to_nat (b - a))%nat.
Proof.
  unfold getitem_list, range. rewrite nth_error_map, nth_error_seq.
  destruct (Nat.ltb_spec i (Z.to_nat (b - a))); cbn; [ | discriminate].
  intros [= <-]. split; [reflexivity | assumption].
Qed.

Lemma length_range (a b : Z) : List.length (range a b) = Z.to_nat (b - a).
Proof. unfold range. rewrite length_map, length_seq. reflexivity. Qed.

(** What [max], [index] and the lookup in [range 1 15] give together. *)
Lemma depth_choice (scores : list Q) (best : Q) (idx : nat) (depth : Z) :
  max_list scores = Ok best ->
  index_list scores best = Ok idx ->
  getitem_list (range 1 15) idx = Ok depth ->
  (1 <= depth <= 14)%Z
  /\ In best scores
  /\ (exists s, nth_error scores (Z.to_nat (depth - 1)) = Some s /\ s == best)
  /\ (forall j sj, nth_error scores j = Some sj -> sj <= best)
  /\ (forall d sd, (1 <= d < depth)%Z ->
        nth_error scores (Z.to_nat (d - 1)) = Some sd -> sd < best).
Proof.
  intros Hmax Hidx Hitem.
  apply max_list_spec in Hmax. destruct Hmax as [Hin Hall].
  apply index_list_spec in Hidx. destruct Hidx as (s & Hs & Hsx & Hfirst).
  apply range_item in Hitem. destruct Hitem as [-> Hi].
  change (Z.to_nat (15 - 1)) with 14%nat in Hi.
  assert (Hidx : Z.to_nat (1 + Z.of_nat idx - 1) = idx) by lia.
  rewrite Hidx. repeat split; try lia.
  - exact Hin.
  - exists s. split; assumption.
  - intros j sj Hj. apply nth_error_In in Hj.
    rewrite Forall_forall in Hall. apply Hall, Hj.
  - intros d sd Hd Hnth.
    assert (Hle : sd <= best).
    { apply nth_error_In in Hnth. rewrite Forall_forall in Hall.
      apply Hall, Hnth. }
    apply Qle_lt_or_eq in Hle. destruct Hle as [Hlt | Heq]; [exact Hlt | ].
    exfalso. apply (Hfirst (Z.to_nat (d - 1)) sd); [lia | exact Hnth | exact Heq].
Qed.

(** ** The depth search *)

(** One pass of the loop body records the score of its depth. *)
Lemma depth_body_scored {T} (R : Runtime T) (X_train X_test : Lib.frame T)
    (y_train y_test : Lib.labels T) (seen : list Z) (depth : Z)
    (s : estimator T * list Q) :
  Forall2 (scored_at world X_train X_test y_train y_test) seen (snd s) ->
  ensures (ClassificationTreeAdvanced.depth_body X_train X_test y_train y_test
             s depth)
    (fun s' _ =>
       Forall2 (scored_at world X_train X_test y_train y_test)
         (seen ++ [depth]) (snd s')).
Proof.
  destruct s as [c scores]. cbn [snd]. intros Hseen.
  unfold ClassificationTreeAdvanced.depth_body.
  repeat ensures_step.
  cbn [snd]. apply Forall2_app; [exact Hseen | ].
  constructor; [ | constructor].
  unfold scored_at. eauto.
Qed.

(** The invariant of the depth search, for [ensures_step_with]. *)
Ltac depth_loop_scored :=
  lazymatch goal with
  | |- ensures (for_fold ?l ?s
                  (ClassificationTreeAdvanced.depth_body ?Xtr ?Xte ?ytr ?yte)) _ =>
      eapply ensures_weaken;
      [ apply (ensures_for_fold
                 (fun seen s' =>
                    Forall2 (scored_at world Xtr Xte ytr yte) seen (snd s'))
                 _ (fun seen x s0 => depth_body_scored _ Xtr Xte ytr yte seen x s0)
                 l [] s);
        constructor
      | intros [? ?] ? ?; cbn [snd app] in * ]
  end.

(** The depth search of a completed run of the tree script. *)
Lemma tree_depth_search_facts {T} (R : Runtime T) :
  ensures (ClassificationTreeAdvanced.script (R := R))
    (fun g _ =>
       ClassificationTreeAdvanced.max_depth_list g = range 1 15
       /\ Forall2 (scored_at world
                     (ClassificationTreeAdvanced.X_train g)
                     (ClassificationTreeAdvanced.X_test g)
                     (ClassificationTreeAdvanced.y_train g)
                     (ClassificationTreeAdvanced.y_test g))
            (range 1 15) (ClassificationTreeAdvanced.accuracy_scores g)
       /\ max_list (ClassificationTreeAdvanced.accuracy_scores g)
          = Ok (ClassificationTreeAdvanced.max_accuracy g)
       /\ index_list (ClassificationTreeAdvanced.accuracy_scores g)
            (ClassificationTreeAdvanced.max_accuracy g)
          = Ok (ClassificationTreeAdvanced.max_accuracy_idx g)
       /\ getitem_list (range 1 15)
            (ClassificationTreeAdvanced.max_accuracy_idx g)
          = Ok (ClassificationTreeAdvanced.optimal_depth g)).
Proof.
  unfold ClassificationTreeAdvanced.script.
  repeat (ensures_step_with ltac:(idtac; depth_loop_scored)).
  cbn. auto.
Qed.

(** ** What is put on display *)

Ltac find_event :=
  lazymatch goal with
  | |- In _ (_ ++ _) =>
      apply in_or_app; first [ left; solve [find_event] | right; find_event ]
  | |- In _ (_ :: _) => first [ left; reflexivity | right; find_event ]
  end.

Lemma logistic_display_facts {T} (R : Runtime T) :
  ensures (LogisticRegressionBasic.script (R := R))
    (fun g tr =>
       In (Ev builtin_print
             [Lib.VMatrix (LogisticRegressionBasic.conf_matrix g)] Returned) tr
       /\ In (Ev (plt Lib.matshow)
                [Lib.VMatrix (LogisticRegressionBasic.conf_matrix g);
                 Lib.VStr "coolwarm"] Returned) tr).
Proof.
  unfold LogisticRegressionBasic.script.
  repeat ensures_step.
  cbn [LogisticRegressionBasic.conf_matrix]. split; find_event.
Qed.

Lemma tree_display_facts {T} (R : Runtime T) :
  ensures (ClassificationTreeAdvanced.script (R := R))
    (fun g tr =>
       In (Ev (plt Lib.matshow)
             [Lib.VMatrix (ClassificationTreeAdvanced.conf_matrix g);
              Lib.VStr "coolwarm"] Returned) tr
       /\ In (Ev (plt Lib.plot)
                [Lib.VInts (ClassificationTreeAdvanced.max_depth_list g);
                 Lib.VFloats (ClassificationTreeAdvanced.accuracy_scores g)]
                Returned) tr
       /\ In (Ev (plt Lib.scatter)
                [Lib.VInt (ClassificationTreeAdvanced.optimal_depth g);
                 Lib.VFloat (ClassificationTreeAdvanced.max_accuracy g);
                 Lib.VStr "x"; Lib.VStr "red"] Returned) tr).
Proof.
  unfold ClassificationTreeAdvanced.script.
  repeat ensures_step.
  cbn [ClassificationTreeAdvanced.conf_matrix
       ClassificationTreeAdvanced.max_depth_list
       ClassificationTreeAdvanced.accuracy_scores
       ClassificationTreeAdvanced.optimal_depth
       ClassificationTreeAdvanced.max_accuracy].
  repeat split; find_event.
Qed.

(** ** Counting the fits *)

Lemma scan_count (k : estimator_kind) (l : list fn) (n : nat) :
  scan (count_step k) n l = Some (n + fits k l)%nat.
Proof.
  revert n. induction l as [|f l IH]; intros n; cbn.
  - f_equal. unfold fits. cbn. lia.
  - rewrite IH. unfold fits. cbn [filter].
    destruct (is_fit k f); cbn [List.length]; f_equal; lia.
Qed.

Lemma scan_fit_calls (l : list fn) (acc : list (estimator_kind * option Z)) :
  scan fit_calls_step acc l = Some (acc ++ fit_calls l).
Proof.
  revert acc. induction l as [|f l IH]; intros acc; cbn [scan].
  - cbn. rewrite app_nil_r. reflexivity.
  - unfold fit_calls. cbn [flat_map].
    destruct f; cbn [fit_calls_step]; rewrite IH; try reflexivity.
    rewrite <- app_assoc. reflexivity.
Qed.

Lemma fits_of_leads {T A} (k : estimator_kind) (m : Py T A) (n : nat) (a : A) :
  leads (count_step k) 0%nat m n -> outcome m = Ok a -> fits k (calls m) = n.
Proof.
  intros Hl Ha. pose proof (leads_final _ _ _ _ _ Hl Ha) as H.
  rewrite scan_count in H. injection H as H. exact H.
Qed.

Lemma fit_calls_of_leads {T A} (m : Py T A)
    (fs : list (estimator_kind * option Z)) (a : A) :
  leads fit_calls_step [] m fs -> outcome m = Ok a -> fit_calls (calls m) = fs.
Proof.
  intros Hl Ha. pose proof (leads_final _ _ _ _ _ Hl Ha) as H.
  rewrite scan_fit_calls in H. injection H as H. exact H.
Qed.

(** The depth search adds one fit per depth. *)
Ltac count_loop :=
  apply (leads_for_fold _ (fun n _ => S n));
  intros ? [? ?] ?; unfold ClassificationTreeAdvanced.depth_body.

Ltac fit_calls_loop :=
  apply (leads_for_fold _
           (fun acc d => acc ++ [(DecisionTreeClassifierK, Some d)]));
  intros ? [? ?] ?; unfold ClassificationTreeAdvanced.depth_body.

Lemma fits_logistic {T} (R : Runtime T) g :
  outcome (LogisticRegressionBasic.script (R := R)) = Ok g ->
  fits LogisticRegressionK (calls (LogisticRegressionBasic.script (R := R))) = 1%nat
  /\ fits DecisionTreeClassifierK
       (calls (LogisticRegressionBasic.script (R := R))) = 0%nat
  /\ fit_calls (calls (LogisticRegressionBasic.script (R := R)))
     = [(LogisticRegressionK, None)].
Proof.
  intros Hg. split; [ | split].
  - eapply fits_of_leads; [ | exact Hg].
    unfold LogisticRegressionBasic.script. repeat leads_step.
  - eapply fits_of_leads; [ | exact Hg].
    unfold LogisticRegressionBasic.script. repeat leads_step.
  - eapply fit_calls_of_leads; [ | exact Hg].
    unfold LogisticRegressionBasic.script. repeat leads_step.
Qed.

Lemma fits_tree {T} (R : Runtime T) g :
  outcome (ClassificationTreeAdvanced.script (R := R)) = Ok g ->
  fits DecisionTreeClassifierK
    (calls (ClassificationTreeAdvanced.script (R := R))) = 15%nat
  /\ fits LogisticRegressionK
       (calls (ClassificationTreeAdvanced.script (R := R))) = 0%nat
  /\ fit_calls (calls (ClassificationTreeAdvanced.script (R := R)))
     = (DecisionTreeClassifierK, Some 5%Z)
       :: map (fun d => (DecisionTreeClassifierK, Some d)) (range 1 15).
Proof.
  intros Hg. split; [ | split].
  - eapply fits_of_leads; [ | exact Hg].
    unfold ClassificationTreeAdvanced.script.
    repeat (leads_step_with ltac:(idtac; count_loop)).
  - eapply fits_of_leads; [ | exact Hg].
    unfold ClassificationTreeAdvanced.script. repeat leads_step.
  - eapply fit_calls_of_leads; [ | exact Hg].
    unfold ClassificationTreeAdvanced.script.
    repeat (leads_step_with ltac:(idtac; fit_calls_loop)).
Qed.

(** ** Seeding *)

Lemma scan_guard (p : fn -> bool) (l : list fn) :
  scan (guard_step p) tt l = if forallb p l then Some tt else None.
Proof.
  induction l as [|f l IH]; cbn; [reflexivity|].
  unfold guard_step at 1. destruct (p f); cbn; [exact IH | reflexivity].
Qed.

Lemma forallb_of_leads {T A} (p : fn -> bool) (m : Py T A) :
  leads (guard_step p) tt m tt -> forallb p (calls m) = true.
Proof.
  intros (s' & Hs & _). rewrite scan_guard in Hs.
  destruct (forallb p (calls m)); [reflexivity | discriminate].
Qed.

Lemma seeded_logistic {T} (R : Runtime T) :
  forallb seeded_42 (calls (LogisticRegressionBasic.script (R := R))) = true.
Proof.
  apply forallb_of_leads.
  unfold LogisticRegressionBasic.script. repeat leads_step.
Qed.

Lemma seeded_tree {T} (R : Runtime T) :
  forallb seeded_42 (calls (ClassificationTreeAdvanced.script (R := R))) = true.
Proof.
  apply forallb_of_leads.
  unfold ClassificationTreeAdvanced.script. repeat leads_step.
Qed.

(** The state of the process-wide generator is never consulted. *)
Lemma ambient_unused {T} (W : Lib.World T) (e1 e2 : Lib.entropy T) :
  LogisticRegressionBasic.script (R := {| world := W; ambient := e1 |})
  = LogisticRegressionBasic.script (R := {| world := W; ambient := e2 |})
  /\ ClassificationTreeAdvanced.script (R := {| world := W; ambient := e1 |})
     = ClassificationTreeAdvanced.script (R := {| world := W; ambient := e2 |}).
Proof. split; reflexivity. Qed.

(** An unseeded call does depend on the state of the process-wide
    generator: the two runs below differ only in that state. *)
Example unseeded_shuffle_differs :
  outcome (Call.shuffle (R := Sample.runtime true 1) Sample.rows None)
  <> outcome (Call.shuffle (R := Sample.runtime true 2) Sample.rows None).
Proof. vm_compute. discriminate. Qed.

(** * The claims *)

(** C1, as amended.  In every run of either script a call of a stage is
    made only after every stage listed before it (load, split, fit, score,
    plot) has run at least once, and the logistic-regression script never
    goes back to an earlier stage.  The claim as stated (no script ever
    goes back) fails for the classification-tree script, whose depth search
    scores and fits again after the first plots; see
    [tree_script_returns_to_earlier_stages]. *)
Theorem stages_first_reached_in_order {T} (R : Runtime T) :
  phased (calls (LogisticRegressionBasic.script (R := R))) = true
  /\ reached_in_order (calls (LogisticRegressionBasic.script (R := R))) = true
  /\ reached_in_order (calls (ClassificationTreeAdvanced.script (R := R))) = true.
Proof.
  split; [apply phased_logistic | split].
  - apply reached_in_order_logistic.
  - apply reached_in_order_tree.
Qed.

(** C1, counterexample.  On the sample data the classification-tree script
    does not run its stages in strict order: [plt.show()] is followed by
    [accuracy_score] and by the fits of the depth search. *)
Lemma tree_script_returns_to_earlier_stages :
  phased (calls (ClassificationTreeAdvanced.script
                   (R := Sample.runtime true 0))) = false.
Proof. vm_compute. reflexivity. Qed.

(** C4, as amended.  A completed run of the logistic-regression script
    fits exactly one model, a LogisticRegression.  A completed run of the
    classification-tree script makes fifteen model-fitting calls, all on
    DecisionTreeClassifiers: the first on an estimator of max_depth 5, and
    then, in the depth search, one on an estimator of each max_depth 1, 2,
    ..., 14 in this order.  ([fit_calls] reads the kind and the max_depth
    off the estimator each [fit] was called on.) *)
Theorem fits_per_script {T} (R : Runtime T) :
  (forall g,
     outcome (LogisticRegressionBasic.script (R := R)) = Ok g ->
     fits LogisticRegressionK
       (calls (LogisticRegressionBasic.script (R := R))) = 1%nat
     /\ fits DecisionTreeClassifierK
          (calls (LogisticRegressionBasic.script (R := R))) = 0%nat
     /\ fit_calls (calls (LogisticRegressionBasic.script (R := R)))
        = [(LogisticRegressionK, None)])
  /\ (forall g,
        outcome (ClassificationTreeAdvanced.script (R := R)) = Ok g ->
        fits DecisionTreeClassifierK
          (calls (ClassificationTreeAdvanced.script (R := R))) = 15%nat
        /\ fits LogisticRegressionK
             (calls (ClassificationTreeAdvanced.script (R := R))) = 0%nat
        /\ fit_calls (calls (ClassificationTreeAdvanced.script (R := R)))
           = (DecisionTreeClassifierK, Some 5%Z)
             :: map (fun d => (DecisionTreeClassifierK, Some d)) (range 1 15)).
Proof.
  split; intros g Hg.
  - exact (fits_logistic R g Hg).
  - exact (fits_tree R g Hg).
Qed.

Lemma fits_per_script_sample :
  fit_calls
    (calls (LogisticRegressionBasic.script (R := Sample.runtime true 0)))
  = [(LogisticRegressionK, None)]
  /\ fit_calls
       (calls (ClassificationTreeAdvanced.script (R := Sample.runtime true 0)))
     = (DecisionTreeClassifierK, Some 5%Z)
       :: map (fun d => (DecisionTreeClassifierK, Some d)) (range 1 15).
Proof.
  destruct (fits_per_script (Sample.runtime true 0)) as [Hl Ht].
  split.
  - eapply Hl. vm_compute. reflexivity.
  - eapply Ht. vm_compute. reflexivity.
Defined.

(** C4, counterexample.  On the sample data the classification-tree script
    makes more than one model-fitting call. *)
Lemma tree_script_fits_more_than_one :
  fits DecisionTreeClassifierK
    (calls (ClassificationTreeAdvanced.script (R := Sample.runtime true 0)))
  <> 1%nat.
Proof. vm_compute. discriminate. Qed.

(** C5, as amended.  What the scripts display is their confusion matrix
    (printed and plotted by the logistic-regression script, plotted by the
    classification-tree script) and, in the classification-tree script, the
    F1 scores of the depth search with the best depth and its score.  The
    values returned by [accuracy_score], [precision_score] and
    [recall_score] are dropped: replacing these functions by others that
    fail on the same arguments changes neither the result of a run nor what
    it calls, displays or raises. *)
Theorem displayed_and_dropped_scores {T} (W : Lib.World T) (e : Lib.entropy T)
    (acc prec rec : Lib.labels T -> Lib.labels T -> result Q) :
  (forall a b, same_failure (acc a b) (Lib.accuracy_score W a b)) ->
  (forall a b, same_failure (prec a b) (Lib.precision_score W a b)) ->
  (forall a b, same_failure (rec a b) (Lib.recall_score W a b)) ->
  let R' : Runtime T := {| world := with_metrics W acc prec rec; ambient := e |} in
  let R : Runtime T := {| world := W; ambient := e |} in
  sim (LogisticRegressionBasic.script (R := R'))
      (LogisticRegressionBasic.script (R := R))
  /\ sim (ClassificationTreeAdvanced.script (R := R'))
         (ClassificationTreeAdvanced.script (R := R))
  /\ (forall g,
        outcome (LogisticRegressionBasic.script (R := R)) = Ok g ->
        In (Ev builtin_print
              [Lib.VMatrix (LogisticRegressionBasic.conf_matrix g)] Returned)
           (trace (LogisticRegressionBasic.script (R := R)))
        /\ In (Ev (plt Lib.matshow)
                 [Lib.VMatrix (LogisticRegressionBasic.conf_matrix g);
                  Lib.VStr "coolwarm"] Returned)
              (trace (LogisticRegressionBasic.script (R := R))))
  /\ (forall g,
        outcome (ClassificationTreeAdvanced.script (R := R)) = Ok g ->
        In (Ev (plt Lib.matshow)
              [Lib.VMatrix (ClassificationTreeAdvanced.conf_matrix g);
               Lib.VStr "coolwarm"] Returned)
           (trace (ClassificationTreeAdvanced.script (R := R)))
        /\ In (Ev (plt Lib.plot)
                 [Lib.VInts (ClassificationTreeAdvanced.max_depth_list g);
                  Lib.VFloats (ClassificationTreeAdvanced.accuracy_scores g)]
                 Returned)
              (trace (ClassificationTreeAdvanced.script (R := R)))
        /\ In (Ev (plt Lib.scatter)
                 [Lib.VInt (ClassificationTreeAdvanced.optimal_depth g);
                  Lib.VFloat (ClassificationTreeAdvanced.max_accuracy g);
                  Lib.VStr "x"; Lib.VStr "red"] Returned)
              (trace (ClassificationTreeAdvanced.script (R := R)))).
Proof.
  intros Hacc Hprec Hrec R' R.
  split; [exact (sim_logistic W e acc prec rec Hacc) | ].
  split; [exact (sim_tree W e acc prec rec Hacc Hprec Hrec) | ].
  split; intros g Hg.
  - exact (logistic_display_facts R g Hg).
  - exact (tree_display_facts R g Hg).
Qed.

Lemma displayed_and_dropped_scores_sample :
  sim (LogisticRegressionBasic.script
         (R := {| world := with_metrics (Sample.libs true)
                             (fun _ _ => Ok 0) (fun _ _ => Ok 0)
                             (fun _ _ => Ok 0);
                  ambient := 0%nat |}))
      (LogisticRegressionBasic.script (R := Sample.runtime true 0))
  /\ In (Ev (T := Sample.types) builtin_print
           [Lib.VMatrix (T := Sample.types) [[0; 1]; [0; 1]]%Z] Returned)
        (trace (LogisticRegressionBasic.script (R := Sample.runtime true 0))).
Proof.
  pose proof (displayed_and_dropped_scores (Sample.libs true) 0%nat
                (fun _ _ => Ok 0) (fun _ _ => Ok 0) (fun _ _ => Ok 0)
                (fun _ _ => I) (fun _ _ => I) (fun _ _ => I)) as H.
  cbv zeta in H. destruct H as (Hsim & _ & Hshown & _).
  split; [exact Hsim | ].
  assert (Hrun : exists g,
             outcome (LogisticRegressionBasic.script
                        (R := Sample.runtime true 0)) = Ok g
             /\ LogisticRegressionBasic.conf_matrix g = [[0; 1]; [0; 1]]%Z)
    by (eexists; split; vm_compute; reflexivity).
  destruct Hrun as (g & Hg & Hm).
  destruct (Hshown g Hg) as [Hprint _]. rewrite Hm in Hprint. exact Hprint.
Defined.

(** C5, counterexample.  On the sample data the logistic-regression script
    computes an accuracy that no print or plot call displays. *)
Lemma logistic_accuracy_not_displayed :
  metrics_displayed
    (trace (LogisticRegressionBasic.script (R := Sample.runtime true 0)))
  = false.
Proof. vm_compute. reflexivity. Qed.

(** C7.  Neither script handles an exception: in every run, a call that
    raises is the last call made and its exception is the outcome of the
    run.  In particular, when [read_csv] (or [open], or [pickle.load])
    raises, the run consists of the load calls alone: nothing is split,
    fitted, scored or plotted. *)
Theorem failures_propagate {T} (R : Runtime T) :
  fail_stop (LogisticRegressionBasic.script (R := R))
  /\ fail_stop (ClassificationTreeAdvanced.script (R := R))
  /\ (forall e,
        Lib.read_csv world "data/sample_data_classification.csv" = Raise e ->
        LogisticRegressionBasic.script (R := R)
        = (Raise e, [Ev pd_read_csv [] (Raised e)]))
  /\ (forall e,
        Lib.open world "data/abc_classification_modelling.p" "rb" = Raise e ->
        ClassificationTreeAdvanced.script (R := R)
        = (Raise e, [Ev builtin_open [] (Raised e)]))
  /\ (forall f e,
        Lib.open world "data/abc_classification_modelling.p" "rb" = Ok f ->
        Lib.load world f = Raise e ->
        ClassificationTreeAdvanced.script (R := R)
        = (Raise e, [Ev builtin_open [] Returned;
                     Ev pickle_load [] (Raised e)])).
Proof.
  split; [apply fail_stop_logistic | ].
  split; [apply fail_stop_tree | ].
  split; [ | split].
  - intros e He. unfold LogisticRegressionBasic.script, Call.read_csv, call.
    rewrite He. reflexivity.
  - intros e He.
    unfold ClassificationTreeAdvanced.script, Call.open, call.
    rewrite He. reflexivity.
  - intros f e Hf He.
    unfold ClassificationTreeAdvanced.script, Call.open, Call.load, call.
    rewrite Hf. cbn [bind]. rewrite He. reflexivity.
Qed.

Lemma failures_propagate_sample :
  LogisticRegressionBasic.script (R := Sample.runtime false 0)
  = (Raise "FileNotFoundError", [Ev pd_read_csv [] (Raised "FileNotFoundError")])
  /\ ClassificationTreeAdvanced.script (R := Sample.runtime false 0)
     = (Raise "FileNotFoundError",
        [Ev builtin_open [] (Raised "FileNotFoundError")]).
Proof.
  destruct (failures_propagate (Sample.runtime false 0))
    as (_ & _ & Hcsv & Hopen & _).
  split.
  - apply Hcsv. reflexivity.
  - apply Hopen. reflexivity.
Defined.

(** C8.  In a completed run of the classification-tree script the encoding
    held by [ohe_enc] is the one feature_engine learns from the training
    frame that [train_test_split] returned, and from nothing else; the
    training frame and the test frame the model sees are both encoded with
    that encoding. *)
Theorem encoder_fitted_on_training_set {T} (R : Runtime T)
    (g : ClassificationTreeAdvanced.globals T) :
  outcome (ClassificationTreeAdvanced.script (R := R)) = Ok g ->
  exists X_train0 X_test0 enc,
    Lib.train_test_split world (Lib.Seeded 42) 0.2
      (ClassificationTreeAdvanced.X g) (ClassificationTreeAdvanced.y g)
      (ClassificationTreeAdvanced.y g)
    = Ok (X_train0, X_test0, ClassificationTreeAdvanced.y_train g,
          ClassificationTreeAdvanced.y_test g)
    /\ Lib.ohe_fit world
         {| Lib.top_categories := None; Lib.variables := ["gender"];
            Lib.drop_last := true |} X_train0 = Ok enc
    /\ encoder_dict_ (ClassificationTreeAdvanced.ohe_enc g) = Some enc
    /\ Lib.ohe_transform world enc X_train0
       = Ok (ClassificationTreeAdvanced.X_train g)
    /\ Lib.ohe_transform world enc X_test0
       = Ok (ClassificationTreeAdvanced.X_test g).
Proof.
  intros Hg. exact (tree_encoder_facts R g Hg).
Qed.

Lemma encoder_fitted_on_training_set_sample :
  exists g,
    outcome (ClassificationTreeAdvanced.script (R := Sample.runtime true 0))
    = Ok g
    /\ encoder_dict_ (ClassificationTreeAdvanced.ohe_enc g) = Some ["gender_M"].
Proof.
  assert (Hrun : exists g,
             outcome (ClassificationTreeAdvanced.script
                        (R := Sample.runtime true 0)) = Ok g)
    by (eexists; vm_compute; reflexivity).
  destruct Hrun as [g Hg]. exists g. split; [exact Hg | ].
  destruct (encoder_fitted_on_training_set (Sample.runtime true 0) g Hg)
    as (X_train0 & X_test0 & enc & _ & Hfit & Henc & _).
  rewrite Henc. cbn in Hfit. injection Hfit as <-. reflexivity.
Defined.

(** C9.  In a completed run of the classification-tree script the depth
    search has recorded, for each depth 1, ..., 14 in turn, the F1 score of
    a tree of that depth; [max_accuracy] is one of these fourteen scores and
    none is greater; [optimal_depth] lies between 1 and 14, its score
    equals [max_accuracy], and every smaller depth scored strictly less. *)
Theorem optimal_depth_is_first_best {T} (R : Runtime T)
    (g : ClassificationTreeAdvanced.globals T) :
  outcome (ClassificationTreeAdvanced.script (R := R)) = Ok g ->
  let scores := ClassificationTreeAdvanced.accuracy_scores g in
  let best := ClassificationTreeAdvanced.max_accuracy g in
  let depth := ClassificationTreeAdvanced.optimal_depth g in
  ClassificationTreeAdvanced.max_depth_list g = range 1 15
  /\ Forall2 (scored_at world
                (ClassificationTreeAdvanced.X_train g)
                (ClassificationTreeAdvanced.X_test g)
                (ClassificationTreeAdvanced.y_train g)
                (ClassificationTreeAdvanced.y_test g))
       (range 1 15) scores
  /\ List.length scores = 14%nat
  /\ (1 <= depth <= 14)%Z
  /\ In best scores
  /\ (exists s, nth_error scores (Z.to_nat (depth - 1)) = Some s /\ s == best)
  /\ (forall j sj, nth_error scores j = Some sj -> sj <= best)
  /\ (forall d sd, (1 <= d < depth)%Z ->
        nth_error scores (Z.to_nat (d - 1)) = Some sd -> sd < best).
Proof.
  intros Hg scores best depth.
  destruct (tree_depth_search_facts R g Hg)
    as (Hlist & Hscored & Hmax & Hidx & Hitem).
  assert (Hlen : List.length scores = 14%nat).
  { unfold scores. apply Forall2_length in Hscored.
    rewrite <- Hscored. apply length_range. }
  split; [exact Hlist | ].
  split; [exact Hscored | ].
  split; [exact Hlen | ].
  exact (depth_choice scores best _ depth Hmax Hidx Hitem).
Qed.

Lemma optimal_depth_is_first_best_sample :
  exists g,
    outcome (ClassificationTreeAdvanced.script (R := Sample.runtime true 0))
    = Ok g
    /\ (1 <= ClassificationTreeAdvanced.optimal_depth g <= 14)%Z.
Proof.
  assert (Hrun : exists g,
             outcome (ClassificationTreeAdvanced.script
                        (R := Sample.runtime true 0)) = Ok g)
    by (eexists; vm_compute; reflexivity).
  destruct Hrun as [g Hg]. exists g. split; [exact Hg | ].
  pose proof (optimal_depth_is_first_best (Sample.runtime true 0) g Hg) as H.
  cbv zeta in H. destruct H as (_ & _ & _ & H & _). exact H.
Defined.

(** C10.  Every call that takes a [random_state] is given 42, in every run
    of either script, and the state of the process-wide random generator
    has no influence: two runs in the same world are equal, in their
    result (partitions, predictions, scores) and in their log, whatever
    that state is. *)
Theorem runs_are_seeded {T} (W : Lib.World T) (e1 e2 : Lib.entropy T) :
  forallb seeded_42
    (calls (LogisticRegressionBasic.script
              (R := {| world := W; ambient := e1 |}))) = true
  /\ forallb seeded_42
       (calls (ClassificationTreeAdvanced.script
                 (R := {| world := W; ambient := e1 |}))) = true
  /\ LogisticRegressionBasic.script (R := {| world := W; ambient := e1 |})
     = LogisticRegressionBasic.script (R := {| world := W; ambient := e2 |})
  /\ ClassificationTreeAdvanced.script (R := {| world := W; ambient := e1 |})
     = ClassificationTreeAdvanced.script (R := {| world := W; ambient := e2 |}).
Proof.
  split; [apply seeded_logistic | ].
  split; [apply seeded_tree | ].
  exact (ambient_unused W e1 e2).
Qed.


(** * Further properties of the scripts *)

(** ** The selection builtins *)

Lemma index_list_found (l : list Q) (x : Q) :
  Exists (fun y => y == x) l -> exists i, index_list l x = Ok i.
Proof.
  induction l as [|item l IH]; intros H; [inversion H | ].
  cbn. destruct (Qeq_bool item x) eqn:Heq; [eauto | ].
  inversion H as [? ? Hhd | ? ? Htl]; subst.
  - apply Qeq_bool_iff in Hhd. congruence.
  - destruct (IH Htl) as [i Hi]. rewrite Hi. eauto.
Qed.

Lemma index_list_bound (l : list Q) (x : Q) (i : nat) :
  index_list l x = Ok i -> (i < List.length l)%nat.
Proof.
  intros H. apply index_list_spec in H. destruct H as (s & Hs & _).
  apply nth_error_Some. congruence.
Qed.

Lemma max_list_nonempty (l : list Q) :
  l <> [] -> exists m, max_list l = Ok m.
Proof. destruct l; [congruence | cbn; eauto]. Qed.

Lemma index_of_max (l : list Q) (m : Q) :
  max_list l = Ok m -> exists i, index_list l m = Ok i.
Proof.
  intros H. apply max_list_spec in H. destruct H as [Hin _].
  apply index_list_found. apply Exists_exists.
  exists m. split; [exact Hin | apply Qeq_refl].
Qed.

(** X1.  Selecting the best entry never fails on matching lists: for a
    non-empty list of scores and a list of depths of the same length,
    [max] returns, [index] of that maximum returns, and the lookup of that
    index in the depths returns. *)
Theorem selection_returns (depths : list Z) (scores : list Q) :
  scores <> [] ->
  List.length depths = List.length scores ->
  exists best idx depth,
    max_list scores = Ok best
    /\ index_list scores best = Ok idx
    /\ getitem_list depths idx = Ok depth.
Proof.
  intros Hne Hlen.
  destruct (max_list_nonempty scores Hne) as [best Hbest].
  destruct (index_of_max scores best Hbest) as [idx Hidx].
  pose proof (index_list_bound _ _ _ Hidx) as Hb.
  destruct (nth_error depths idx) as [d|] eqn:Hd.
  - exists best, idx, d. unfold getitem_list. rewrite Hd. auto.
  - apply nth_error_None in Hd. lia.
Qed.

Lemma selection_returns_sample :
  exists best idx depth,
    max_list [1 # 2; 3 # 4; 6 # 8] = Ok best
    /\ index_list [1 # 2; 3 # 4; 6 # 8] best = Ok idx
    /\ getitem_list [1; 2; 3]%Z idx = Ok depth.
Proof.
  apply (selection_returns [1; 2; 3]%Z [1 # 2; 3 # 4; 6 # 8]).
  - discriminate.
  - reflexivity.
Defined.

(** ** Properties of every logged call *)

Section Throughout.
Context {T : Lib.PyTypes} (good : event T -> Prop).

Lemma throughout_ret {A} (a : A) :
  throughout good (ret a) (fun a' => a' = a).
Proof.
  split; [constructor | ]. intros a' [= <-]. reflexivity.
Qed.

Lemma throughout_ret_any {A} (a : A) :
  throughout good (ret a) (fun _ => True).
Proof. split; [constructor | auto]. Qed.

Lemma throughout_event {A} (f : fn) args o (r : result A) (Q : A -> Prop) :
  good (Ev f args o) -> (forall a, r = Ok a -> Q a) ->
  throughout good (r, [Ev f args o]) Q.
Proof.
  intros Hg HQ. split; [repeat constructor; exact Hg | exact HQ].
Qed.

Lemma throughout_bind {A B} (m : Py T A) (k : A -> Py T B)
    (P : A -> Prop) (Q : B -> Prop) :
  throughout good m P -> (forall a, P a -> throughout good (k a) Q) ->
  throughout good (bind m k) Q.
Proof.
  intros [Hm HP] Hk. unfold throughout.
  rewrite trace_bind, outcome_bind.
  destruct (outcome m) as [a|e].
  - destruct (Hk a (HP a eq_refl)) as [Hka HQ].
    split; [apply Forall_app; split; assumption | exact HQ].
  - rewrite app_nil_r. split; [exact Hm | discriminate].
Qed.

Lemma throughout_for_each {A} (body : A -> Py T unit) :
  (forall x, exists P, throughout good (body x) P) ->
  forall l, throughout good (for_each l body) (fun _ => True).
Proof.
  intros Hbody. induction l as [|x l IH]; cbn [for_each].
  - split; [constructor | auto].
  - destruct (Hbody x) as [P HP].
    eapply throughout_bind; [exact HP | intros _ _; exact IH].
Qed.

Lemma throughout_for_fold {A S} (Inv : list A -> S -> Prop)
    (body : S -> A -> Py T S) :
  (forall seen x s, Inv seen s ->
     throughout good (body s x) (Inv (seen ++ [x]))) ->
  forall l seen s, Inv seen s ->
    throughout good (for_fold l s body) (Inv (seen ++ l)).
Proof.
  intros Hbody. induction l as [|x l IH]; intros seen s Hs; cbn [for_fold].
  - rewrite app_nil_r. split; [constructor | ].
    intros a [= <-]. exact Hs.
  - eapply throughout_bind; [exact (Hbody seen x s Hs) | ].
    intros s' Hs'. specialize (IH (seen ++ [x]) s' Hs').
    rewrite <- app_assoc in IH. exact IH.
Qed.

End Throughout.

(** One statement of a run; [check] proves that the call it logs is good,
    [loop] deals with the depth search. *)
Ltac throughout_step_with check loop :=
  cbv beta in *;
  lazymatch goal with
  | |- throughout _ (bind _ _) _ =>
      eapply throughout_bind;
      [ | let a := fresh "v" in let H := fresh "E" in intros a H ]
  | |- throughout _ (ret _) _ =>
      first [ apply throughout_ret | apply throughout_ret_any ]
  | |- throughout _ (for_each _ _) _ =>
      apply throughout_for_each; intros [[? ?] ?]; eexists
  | |- throughout _ (for_fold _ _ _) _ => loop
  | |- throughout _ (let '(_, _) := ?p in _) _ => destruct p
  | |- throughout _ (Call.fit _ _ _) _ => unfold Call.fit
  | |- throughout _ (Call.plot_tree ?c _) _ =>
      unfold Call.plot_tree; destruct (learned c);
      (eapply throughout_event; [ check | intros ? ?; exact I ])
  | |- throughout _ _ _ =>
      eapply throughout_event;
      [ check | let a := fresh "v" in let H := fresh "E" in
                intros a H; exact H ]
  end.

(** The scores recorded so far are as many as the depths visited. *)
Lemma depth_body_length {T} (R : Runtime T) (good : event T -> Prop)
    (X_train X_test : Lib.frame T) (y_train y_test : Lib.labels T)
    (seen : list Z) (depth : Z) (s : estimator T * list Q) :
  (forall f o, is_selection f = false -> f <> plt Lib.plot ->
               good (Ev f [] o)) ->
  List.length (snd s) = List.length seen ->
  throughout good
    (ClassificationTreeAdvanced.depth_body X_train X_test y_train y_test
       s depth)
    (fun s' => List.length (snd s') = List.length (seen ++ [depth])).
Proof.
  intros Hgood Hlen. destruct s as [c scores]. cbn [snd] in Hlen.
  unfold ClassificationTreeAdvanced.depth_body.
  eapply throughout_bind; [ | intros ? ? ].
  { eapply throughout_event;
      [apply Hgood; [reflexivity | discriminate] | intros a H; exact H]. }
  eapply throughout_bind; [ | intros ? ? ].
  { unfold Call.fit. eapply throughout_bind; [ | intros ? ? ].
    - eapply throughout_event;
        [apply Hgood; [reflexivity | discriminate] | intros a' H'; exact H'].
    - apply throughout_ret_any. }
  eapply throughout_bind; [ | intros ? ? ].
  { eapply throughout_event;
      [apply Hgood; [reflexivity | discriminate] | intros a' H'; exact H']. }
  eapply throughout_bind; [ | intros ? ? ].
  { eapply throughout_event;
      [apply Hgood; [reflexivity | discriminate] | intros a' H'; exact H']. }
  split; [constructor | ].
  intros s' [= <-]. cbn [snd]. rewrite !length_app, Hlen. reflexivity.
Qed.

(** The depth search, for [throughout_step_with]. *)
Ltac depth_loop_length Hgood :=
  lazymatch goal with
  | |- throughout ?good
         (for_fold ?l ?s
            (ClassificationTreeAdvanced.depth_body ?Xtr ?Xte ?ytr ?yte)) _ =>
      apply (throughout_for_fold good
               (fun seen s' => List.length (snd s') = List.length seen)
               _ (fun seen x s0 =>
                    depth_body_length _ good Xtr Xte ytr yte seen x s0 Hgood)
               l [] s eq_refl)
  end.

Lemma selection_good_elsewhere {T} (f : fn) (o : call_outcome) :
  is_selection f = false -> f <> plt Lib.plot ->
  selection_returned (T := T) (Ev f [] o).
Proof. intros Hf _ Hs. cbn in Hs. congruence. Qed.

Lemma depth_curve_good_elsewhere {T} (f : fn) (o : call_outcome) :
  is_selection f = false -> f <> plt Lib.plot ->
  depth_curve_complete (T := T) (Ev f [] o).
Proof. intros _ Hf Hc. cbn in Hc. contradiction. Qed.

(** The selection builtins return on what the script hands them. *)
Ltac selection_check :=
  unfold selection_returned, raised; cbn [callee outcome_of];
  first
    [ intros Hs; cbn in Hs; discriminate Hs
    | intros _;
      lazymatch goal with
      | H : List.length (snd (_, ?l)) = _ |- context [max_list ?l] =>
          destruct l; [discriminate H | reflexivity]
      | H : max_list ?l = Ok ?m |- context [index_list ?l ?m] =>
          let Hi := fresh in
          destruct (index_of_max l m H) as [? Hi]; rewrite Hi; reflexivity
      | H : index_list ?l ?m = Ok ?i,
        Hl : List.length (snd (_, ?l)) = _ |- context [getitem_list ?d ?i] =>
          let Hn := fresh in
          apply index_list_bound in H; cbn [snd app] in Hl;
          unfold getitem_list;
          destruct (nth_error d i) eqn:Hn;
          [ reflexivity | apply nth_error_None in Hn; lia ]
      end ].

(** X2.  In no run of the classification-tree script does the selection
    of the best depth raise: whenever [max], [list.index] or the lookup in
    [max_depth_list] is called, it returns. *)
Theorem selection_never_raises {T} (R : Runtime T) :
  Forall selection_returned
    (trace (ClassificationTreeAdvanced.script (R := R))).
Proof.
  cut (throughout selection_returned
         (ClassificationTreeAdvanced.script (R := R)) (fun _ => True)).
  { intros [H _]. exact H. }
  unfold ClassificationTreeAdvanced.script.
  repeat (throughout_step_with
            ltac:(idtac; selection_check)
            ltac:(idtac; depth_loop_length (@selection_good_elsewhere T))).
Qed.

Ltac depth_curve_check :=
  unfold depth_curve_complete; cbn [callee shown];
  first
    [ intros Hc; discriminate Hc
    | intros _; eexists; split; [reflexivity | ];
      lazymatch goal with
      | H : List.length (snd (_, ?l)) = _ |- List.length ?l = _ => exact H
      end ].

(** X3.  In every run of the classification-tree script, whenever the
    depth curve is plotted ([plt.plot]) it is given the depths 1, ..., 14
    and exactly fourteen scores. *)
Theorem depth_curve_has_fourteen_points {T} (R : Runtime T) :
  Forall depth_curve_complete
    (trace (ClassificationTreeAdvanced.script (R := R))).
Proof.
  cut (throughout depth_curve_complete
         (ClassificationTreeAdvanced.script (R := R)) (fun _ => True)).
  { intros [H _]. exact H. }
  unfold ClassificationTreeAdvanced.script.
  repeat (throughout_step_with
            ltac:(idtac; depth_curve_check)
            ltac:(idtac; depth_loop_length (@depth_curve_good_elsewhere T))).
Qed.

(** ** Use after fit *)

Lemma outcome_result_not {A} (r : result A) (x : exn) :
  r <> Raise x -> outcome_result r <> Raised x.
Proof.
  destruct r as [a|e]; cbn; [discriminate | ].
  intros Hr [= ->]. apply Hr. reflexivity.
Qed.

(** [fit] leaves a fitted estimator. *)
Lemma throughout_fit {T} (R : Runtime T) (good : event T -> Prop)
    (clf : estimator T) (X : Lib.frame T) (y : Lib.labels T) :
  (forall o, good (Ev (clf_fit (kind clf) (random_state clf) (max_depth clf))
                     [] o)) ->
  throughout good (Call.fit clf X y) (fun c => exists m, learned c = Some m).
Proof.
  intros Hgood. unfold Call.fit.
  eapply throughout_bind.
  - eapply throughout_event; [apply Hgood | intros a H; exact H].
  - intros m _. split; [constructor | ].
    intros c [= <-]. cbn [learned]. eauto.
Qed.

Lemma not_unfitted_elsewhere {T} (f : fn) args (o : call_outcome) :
  needs_fitted f = false -> not_unfitted (T := T) (Ev f args o).
Proof. intros Hf Hn. cbn in Hn. congruence. Qed.

(** The call a statement logs did not fail for want of a fitted object. *)
Ltac fitted_check :=
  first
    [ apply not_unfitted_elsewhere; reflexivity
    | intros ?; apply not_unfitted_elsewhere; reflexivity
    | intros _; cbn [outcome_of]; apply outcome_result_not;
      match goal with
      | H : forall m X, _ <> Raise "NotFittedError" |- _ => apply H
      end ].

(** One statement of a run, with what is known of the objects it uses. *)
Ltac fitted_step loop :=
  cbv beta in *; cbn [fst] in *;
  repeat match goal with
         | H : exists m, learned _ = Some m |- _ => destruct H as [? H]
         | H : match Lib.ohe_fit _ _ _ with _ => _ end = Ok (_, _) |- _ =>
             let He := fresh in
             apply fit_transform_returned in H;
             destruct H as (? & ? & _ & _ & H);
             pose proof (f_equal fst H) as He; cbn [fst] in He;
             clear H; subst
         end;
  lazymatch goal with
  | |- throughout _ (bind _ _) _ =>
      eapply throughout_bind;
      [ | let a := fresh "v" in let H := fresh "E" in intros a H ]
  | |- throughout _ (ret _) _ =>
      first [ apply throughout_ret | apply throughout_ret_any
            | split; [constructor | intros ? [= <-]; cbn [fst learned]; eauto] ]
  | |- throughout _ (for_each _ _) _ =>
      apply throughout_for_each; intros [[? ?] ?]; eexists
  | |- throughout _ (for_fold _ _ _) _ => loop
  | |- throughout _ (let '(_, _) := ?p in _) _ => destruct p
  | |- throughout _ (Call.fit _ _ _) _ => apply throughout_fit; fitted_check
  | |- throughout _ (Call.predict ?c _) _ =>
      unfold Call.predict;
      match goal with H : learned c = Some _ |- _ => rewrite H end;
      eapply throughout_event;
      [ fitted_check
      | let a := fresh "v" in let H := fresh "E" in intros a H; exact H ]
  | |- throughout _ (Call.predict_proba ?c _) _ =>
      unfold Call.predict_proba;
      match goal with H : learned c = Some _ |- _ => rewrite H end;
      eapply throughout_event;
      [ fitted_check
      | let a := fresh "v" in let H := fresh "E" in intros a H; exact H ]
  | |- throughout _ (Call.plot_tree ?c _) _ =>
      unfold Call.plot_tree;
      match goal with H : learned c = Some _ |- _ => rewrite H end;
      eapply throughout_event; [ fitted_check | intros ? ?; exact I ]
  | |- throughout _ (Call.transform _ _) _ =>
      unfold Call.transform; cbn [encoder_dict_];
      eapply throughout_event;
      [ fitted_check
      | let a := fresh "v" in let H := fresh "E" in intros a H; exact H ]
  | |- throughout _ _ _ =>
      eapply throughout_event;
      [ fitted_check
      | let a := fresh "v" in let H := fresh "E" in intros a H; exact H ]
  end.

(** One pass of the depth search uses the tree it has just fitted and
    leaves a fitted tree in [clf]. *)
Lemma depth_body_fitted {T} (R : Runtime T) (X_train X_test : Lib.frame T)
    (y_train y_test : Lib.labels T) (depth : Z) (s : estimator T * list Q) :
  accepts_fitted world ->
  throughout not_unfitted
    (ClassificationTreeAdvanced.depth_body X_train X_test y_train y_test
       s depth)
    (fun s' => exists m, learned (fst s') = Some m).
Proof.
  intros (Hp & Hpp & Hpt & Ht). destruct s as [c scores].
  unfold ClassificationTreeAdvanced.depth_body.
  repeat (fitted_step ltac:(idtac; fail)).
Qed.

Ltac depth_loop_fitted Hlib :=
  lazymatch goal with
  | |- throughout ?good
         (for_fold ?l ?s
            (ClassificationTreeAdvanced.depth_body ?Xtr ?Xte ?ytr ?yte)) _ =>
      apply (throughout_for_fold good
               (fun _ s' => exists m, learned (fst s') = Some m)
               _ (fun seen x s0 _ =>
                    depth_body_fitted _ Xtr Xte ytr yte x s0 Hlib)
               l [] s);
      cbn [fst learned]; eauto
  end.

(** X4.  In every run of either script [predict], [predict_proba],
    [plot_tree] and the encoder's [transform] are called on fitted objects
    only: provided the library itself does not answer NotFittedError for a
    fitted model or encoding, none of these calls, in any run, fails with
    NotFittedError. *)
Theorem never_used_unfitted {T} (R : Runtime T) :
  accepts_fitted world ->
  Forall not_unfitted (trace (LogisticRegressionBasic.script (R := R)))
  /\ Forall not_unfitted (trace (ClassificationTreeAdvanced.script (R := R))).
Proof.
  intros Hlib. pose proof Hlib as (Hp & Hpp & Hpt & Ht). split.
  - cut (throughout not_unfitted
           (LogisticRegressionBasic.script (R := R)) (fun _ => True)).
    { intros [H _]. exact H. }
    unfold LogisticRegressionBasic.script.
    repeat (fitted_step ltac:(idtac; fail)).
  - cut (throughout not_unfitted
           (ClassificationTreeAdvanced.script (R := R)) (fun _ => True)).
    { intros [H _]. exact H. }
    unfold ClassificationTreeAdvanced.script.
    repeat (fitted_step ltac:(idtac; depth_loop_fitted Hlib)).
Qed.

Lemma never_used_unfitted_sample :
  Forall not_unfitted
    (trace (ClassificationTreeAdvanced.script (R := Sample.runtime true 0))).
Proof.
  apply (never_used_unfitted (Sample.runtime true 0)).
  repeat split; intros; discriminate.
Defined.

(** ** Where the values of a completed run come from *)

(** A statement about the result of a completed run, as an [ensures]. *)
Ltac as_ensures :=
  lazymatch goal with
  | |- forall g, outcome ?m = Ok g -> @?P g =>
      change (ensures m (fun g _ => P g))
  end.

(** X5.  In a completed run of the logistic-regression script the features
    and the target are taken from the same frame, the model is fitted on
    the training part of the split only, and the predictions, the
    probabilities and the confusion matrix are computed on the test part
    only, with [y_test] as the actual labels. *)
Theorem logistic_data_flow {T} (R : Runtime T)
    (g : LogisticRegressionBasic.globals T) :
  outcome (LogisticRegressionBasic.script (R := R)) = Ok g ->
  Lib.read_csv world "data/sample_data_classification.csv"
  = Ok (LogisticRegressionBasic.my_df g)
  /\ Lib.drop world (LogisticRegressionBasic.my_df g) ["output"]
     = Ok (LogisticRegressionBasic.X g)
  /\ Lib.getitem world (LogisticRegressionBasic.my_df g) "output"
     = Ok (LogisticRegressionBasic.y g)
  /\ Lib.train_test_split world (Lib.Seeded 42) 0.2
       (LogisticRegressionBasic.X g) (LogisticRegressionBasic.y g)
       (LogisticRegressionBasic.y g)
     = Ok (LogisticRegressionBasic.X_train g, LogisticRegressionBasic.X_test g,
           LogisticRegressionBasic.y_train g, LogisticRegressionBasic.y_test g)
  /\ exists m,
       Lib.fit world LogisticRegressionK None (Lib.Seeded 42)
         (LogisticRegressionBasic.X_train g)
         (LogisticRegressionBasic.y_train g) = Ok m
       /\ LogisticRegressionBasic.clf g
          = {| kind := LogisticRegressionK; random_state := Some 42%Z;
               max_depth := None; learned := Some m |}
       /\ Lib.predict world m (LogisticRegressionBasic.X_test g)
          = Ok (LogisticRegressionBasic.y_pred g)
       /\ Lib.predict_proba world m (LogisticRegressionBasic.X_test g)
          = Ok (LogisticRegressionBasic.y_pred_prob g)
       /\ Lib.confusion_matrix world (LogisticRegressionBasic.y_test g)
            (LogisticRegressionBasic.y_pred g)
          = Ok (LogisticRegressionBasic.conf_matrix g).
Proof.
  revert g. as_ensures.
  unfold LogisticRegressionBasic.script.
  repeat ensures_step.
  cbn. eauto 12.
Qed.

Lemma logistic_data_flow_sample :
  exists g,
    outcome (LogisticRegressionBasic.script (R := Sample.runtime true 0)) = Ok g
    /\ Lib.drop (Sample.libs true) (LogisticRegressionBasic.my_df g) ["output"]
       = Ok (LogisticRegressionBasic.X g).
Proof.
  assert (Hrun : exists g,
             outcome (LogisticRegressionBasic.script
                        (R := Sample.runtime true 0)) = Ok g)
    by (eexists; vm_compute; reflexivity).
  destruct Hrun as [g Hg]. exists g. split; [exact Hg | ].
  destruct (logistic_data_flow (Sample.runtime true 0) g Hg) as (_ & H & _).
  exact H.
Defined.

(** X6.  In a completed run of the classification-tree script,
    [customer_id] is dropped first, the frame is then shuffled with seed 42,
    rows with missing values are dropped after that, and the features [X]
    and the target [y] are both taken from the resulting frame. *)
Theorem tree_preprocessing {T} (R : Runtime T)
    (g : ClassificationTreeAdvanced.globals T) :
  outcome (ClassificationTreeAdvanced.script (R := R)) = Ok g ->
  exists f df0 df1 df2,
    Lib.open world "data/abc_classification_modelling.p" "rb" = Ok f
    /\ Lib.load world f = Ok df0
    /\ Lib.drop world df0 ["customer_id"] = Ok df1
    /\ Lib.shuffle world (Lib.Seeded 42) df1 = Ok df2
    /\ Lib.dropna world df2 = Ok (ClassificationTreeAdvanced.data_for_model g)
    /\ Lib.drop world (ClassificationTreeAdvanced.data_for_model g)
         ["signup_flag"] = Ok (ClassificationTreeAdvanced.X g)
    /\ Lib.getitem world (ClassificationTreeAdvanced.data_for_model g)
         "signup_flag" = Ok (ClassificationTreeAdvanced.y g).
Proof.
  revert g. as_ensures.
  unfold ClassificationTreeAdvanced.script.
  repeat ensures_step.
  cbn. eauto 12.
Qed.

Lemma tree_preprocessing_sample :
  exists g,
    outcome (ClassificationTreeAdvanced.script (R := Sample.runtime true 0))
    = Ok g
    /\ Lib.drop (Sample.libs true) (ClassificationTreeAdvanced.data_for_model g)
         ["signup_flag"] = Ok (ClassificationTreeAdvanced.X g).
Proof.
  assert (Hrun : exists g,
             outcome (ClassificationTreeAdvanced.script
                        (R := Sample.runtime true 0)) = Ok g)
    by (eexists; vm_compute; reflexivity).
  destruct Hrun as [g Hg]. exists g. split; [exact Hg | ].
  destruct (tree_preprocessing (Sample.runtime true 0) g Hg)
    as (f & df0 & df1 & df2 & _ & _ & _ & _ & _ & H & _).
  exact H.
Defined.

Lemma tree_assessment_facts {T} (R : Runtime T) :
  ensures (ClassificationTreeAdvanced.script (R := R))
    (fun g _ =>
       exists m proba,
         Lib.fit world DecisionTreeClassifierK (Some 5%Z) (Lib.Seeded 42)
           (ClassificationTreeAdvanced.X_train g)
           (ClassificationTreeAdvanced.y_train g) = Ok m
         /\ Lib.predict world m (ClassificationTreeAdvanced.X_test g)
            = Ok (ClassificationTreeAdvanced.y_pred_class g)
         /\ Lib.predict_proba world m (ClassificationTreeAdvanced.X_test g)
            = Ok proba
         /\ Lib.column world proba 1 = Ok (ClassificationTreeAdvanced.y_pred_prob g)
         /\ Lib.confusion_matrix world (ClassificationTreeAdvanced.y_test g)
              (ClassificationTreeAdvanced.y_pred_class g)
            = Ok (ClassificationTreeAdvanced.conf_matrix g)
         /\ (exists acc, Lib.accuracy_score world
                           (ClassificationTreeAdvanced.y_test g)
                           (ClassificationTreeAdvanced.y_pred_class g) = Ok acc)
         /\ (exists prec, Lib.precision_score world
                            (ClassificationTreeAdvanced.y_test g)
                            (ClassificationTreeAdvanced.y_pred_class g) = Ok prec)
         /\ (exists rec, Lib.recall_score world
                           (ClassificationTreeAdvanced.y_test g)
                           (ClassificationTreeAdvanced.y_pred_class g) = Ok rec)
         /\ (exists f1, Lib.f1_score world
                          (ClassificationTreeAdvanced.y_test g)
                          (ClassificationTreeAdvanced.y_pred_class g) = Ok f1)).
Proof.
  unfold ClassificationTreeAdvanced.script.
  repeat ensures_step.
  cbn. eauto 15.
Qed.

(** X7.  In a completed run of the classification-tree script the tree
    that is assessed is the one of depth 5 fitted on the encoded training
    frame; its predictions and probabilities are computed on the encoded
    test frame, [y_pred_prob] is column 1 of the probabilities, and the
    confusion matrix and the four scores compare [y_test] with these
    predictions. *)
Theorem tree_assessment {T} (R : Runtime T)
    (g : ClassificationTreeAdvanced.globals T) :
  outcome (ClassificationTreeAdvanced.script (R := R)) = Ok g ->
  exists m proba,
    Lib.fit world DecisionTreeClassifierK (Some 5%Z) (Lib.Seeded 42)
      (ClassificationTreeAdvanced.X_train g)
      (ClassificationTreeAdvanced.y_train g) = Ok m
    /\ Lib.predict world m (ClassificationTreeAdvanced.X_test g)
       = Ok (ClassificationTreeAdvanced.y_pred_class g)
    /\ Lib.predict_proba world m (ClassificationTreeAdvanced.X_test g)
       = Ok proba
    /\ Lib.column world proba 1 = Ok (ClassificationTreeAdvanced.y_pred_prob g)
    /\ Lib.confusion_matrix world (ClassificationTreeAdvanced.y_test g)
         (ClassificationTreeAdvanced.y_pred_class g)
       = Ok (ClassificationTreeAdvanced.conf_matrix g)
    /\ (exists acc, Lib.accuracy_score world
                      (ClassificationTreeAdvanced.y_test g)
                      (ClassificationTreeAdvanced.y_pred_class g) = Ok acc)
    /\ (exists prec, Lib.precision_score world
                       (ClassificationTreeAdvanced.y_test g)
                       (ClassificationTreeAdvanced.y_pred_class g) = Ok prec)
    /\ (exists rec, Lib.recall_score world
                      (ClassificationTreeAdvanced.y_test g)
                      (ClassificationTreeAdvanced.y_pred_class g) = Ok rec)
    /\ (exists f1, Lib.f1_score world
                     (ClassificationTreeAdvanced.y_test g)
                     (ClassificationTreeAdvanced.y_pred_class g) = Ok f1).
Proof.
  intros Hg. exact (tree_assessment_facts R g Hg).
Qed.

Lemma tree_assessment_sample :
  exists g,
    outcome (ClassificationTreeAdvanced.script (R := Sample.runtime true 0))
    = Ok g
    /\ Lib.confusion_matrix (Sample.libs true)
         (ClassificationTreeAdvanced.y_test g)
         (ClassificationTreeAdvanced.y_pred_class g)
       = Ok (ClassificationTreeAdvanced.conf_matrix g).
Proof.
  assert (Hrun : exists g,
             outcome (ClassificationTreeAdvanced.script
                        (R := Sample.runtime true 0)) = Ok g)
    by (eexists; vm_compute; reflexivity).
  destruct Hrun as [g Hg]. exists g. split; [exact Hg | ].
  destruct (tree_assessment (Sample.runtime true 0) g Hg)
    as (m & proba & _ & _ & _ & _ & H & _).
  exact H.
Defined.

(** ** The tree that is plotted *)






(** ** The first F1 score and the depth search *)

Lemma Forall2_nth {A B} (P : A -> B -> Prop) (l1 : list A) (l2 : list B)
    (i : nat) (a : A) :
  Forall2 P l1 l2 -> nth_error l1 i = Some a ->
  exists b, nth_error l2 i = Some b /\ P a b.
Proof.
  intros H. revert i. induction H as [|x y l1 l2 Hxy _ IH]; intros i Hi.
  - destruct i; discriminate.
  - destruct i as [|i]; cbn in *.
    + injection Hi as <-. eauto.
    + apply IH, Hi.
Qed.

(** X9.  In a completed run of the classification-tree script the score
    the depth search records for depth 5 is the F1 score of the first
    model: the search refits the same tree on the same data, so the fifth
    point of the depth curve is the value the stand-alone [f1_score] call
    returned. *)
Theorem depth_five_score_is_first_f1 {T} (R : Runtime T)
    (g : ClassificationTreeAdvanced.globals T) :
  outcome (ClassificationTreeAdvanced.script (R := R)) = Ok g ->
  exists s,
    Lib.f1_score world (ClassificationTreeAdvanced.y_test g)
      (ClassificationTreeAdvanced.y_pred_class g) = Ok s
    /\ nth_error (ClassificationTreeAdvanced.accuracy_scores g) 4 = Some s.
Proof.
  intros Hg.
  destruct (tree_assessment_facts R g Hg)
    as (m & proba & Hfit & Hpred & _ & _ & _ & _ & _ & _ & [f1 Hf1]).
  destruct (tree_depth_search_facts R g Hg) as (_ & Hscored & _).
  destruct (Forall2_nth _ _ _ 4 5%Z Hscored eq_refl)
    as (s & Hs & m' & y_pred & Hfit' & Hpred' & Hf1').
  rewrite Hfit in Hfit'. injection Hfit' as <-.
  rewrite Hpred in Hpred'. injection Hpred' as <-.
  rewrite Hf1 in Hf1'. injection Hf1' as <-.
  exists f1. split; assumption.
Qed.

Lemma depth_five_score_is_first_f1_sample :
  exists g s,
    outcome (ClassificationTreeAdvanced.script (R := Sample.runtime true 0))
    = Ok g
    /\ nth_error (ClassificationTreeAdvanced.accuracy_scores g) 4 = Some s.
Proof.
  assert (Hrun : exists g,
             outcome (ClassificationTreeAdvanced.script
                        (R := Sample.runtime true 0)) = Ok g)
    by (eexists; vm_compute; reflexivity).
  destruct Hrun as [g Hg].
  destruct (depth_five_score_is_first_f1 (Sample.runtime true 0) g Hg)
    as (s & _ & Hs).
  exists g, s. split; assumption.
Defined.

(** ** The annotations of the confusion-matrix plot *)

Section Annotations.
Context {T : Lib.PyTypes}.

Lemma ensures_for_each_events {A} (body : A -> Py T unit) (ev : A -> event T) :
  (forall x, ensures (body x) (fun _ t => t = [ev x])) ->
  forall l, ensures (for_each l body) (fun _ t => t = map ev l).
Proof.
  intros Hbody. induction l as [|x l IH]; cbn [for_each map].
  - apply ensures_ret. reflexivity.
  - apply ensures_bind.
    eapply ensures_weaken; [apply Hbody | ].
    intros u t Ht. cbv beta in *. subst t.
    eapply ensures_weaken; [apply IH | ].
    intros u' t' Ht'. cbv beta in *. subst t'. reflexivity.
Qed.

Lemma ensures_trace {A} (m : Py T A) (P : list (event T) -> Prop)
    (Q : A -> list (event T) -> Prop) :
  P (trace m) -> (forall a t, P t -> Q a t) -> ensures m Q.
Proof. intros HP HQ a _. apply HQ, HP. Qed.

Lemma annotations_app (t1 t2 : list (event T)) :
  annotations (t1 ++ t2) = annotations t1 ++ annotations t2.
Proof. apply filter_app. Qed.

Lemma annotations_map (cells : list ((Z * Z) * Z)) :
  annotations (T := T) (map annotation cells) = map annotation cells.
Proof.
  induction cells as [|c cells IH]; [reflexivity | ].
  cbn. unfold annotations in IH. rewrite IH. reflexivity.
Qed.

Lemma annotations_none (tr : list (event T)) :
  forallb (fun f => negb (is_text f)) (map callee tr) = true ->
  annotations tr = [].
Proof.
  induction tr as [|ev tr IH]; [reflexivity | ].
  cbn. destruct (is_text (callee ev)); cbn; [discriminate | exact IH].
Qed.

End Annotations.

Lemma depth_loop_annotations {T} (R : Runtime T) (X_train X_test : Lib.frame T)
    (y_train y_test : Lib.labels T) (l : list Z) (s : estimator T * list Q) :
  annotations
    (trace (for_fold l s
              (ClassificationTreeAdvanced.depth_body
                 X_train X_test y_train y_test))) = [].
Proof.
  apply annotations_none.
  apply (forallb_of_leads (fun f => negb (is_text f))).
  repeat leads_step.
Qed.

(** One statement of a completed run, keeping the log of the loops. *)
Ltac ensures_step_log :=
  cbv beta;
  lazymatch goal with
  | |- ensures (for_each _ _) _ =>
      eapply ensures_weaken;
      [ apply (ensures_for_each_events _ annotation);
        intros [[? ?] ?]; unfold Call.pyplot;
        apply ensures_display; intros ? _; reflexivity
      | let Ht := fresh "Ht" in intros ? ? Ht; cbv beta in *; subst ]
  | |- ensures (for_fold _ _ _) _ =>
      eapply (ensures_trace _ (fun t => annotations t = []));
      [ apply depth_loop_annotations
      | let Hl := fresh "Hloop" in intros [? ?] ? Hl ]
  | |- _ => ensures_step
  end.

Ltac annotations_of_log :=
  repeat rewrite annotations_app;
  lazymatch goal with
  | |- context [annotations (map annotation ?l)] =>
      rewrite (annotations_map l)
  end;
  repeat match goal with
         | H : annotations _ = [] |- _ => rewrite H
         end;
  cbn [annotations filter callee is_text app];
  rewrite ?app_nil_r; reflexivity.

Lemma logistic_annotation_facts {T} (R : Runtime T) :
  ensures (LogisticRegressionBasic.script (R := R))
    (fun g tr =>
       annotations tr
       = map annotation
           (Lib.ndenumerate world (LogisticRegressionBasic.conf_matrix g))).
Proof.
  unfold LogisticRegressionBasic.script.
  repeat ensures_step_log.
  cbn [LogisticRegressionBasic.conf_matrix].
  annotations_of_log.
Qed.

Lemma tree_annotation_facts {T} (R : Runtime T) :
  ensures (ClassificationTreeAdvanced.script (R := R))
    (fun g tr =>
       annotations tr
       = map annotation
           (Lib.ndenumerate world (ClassificationTreeAdvanced.conf_matrix g))).
Proof.
  unfold ClassificationTreeAdvanced.script.
  repeat ensures_step_log.
  cbn [ClassificationTreeAdvanced.conf_matrix].
  annotations_of_log.
Qed.

(** X10.  In a completed run of either script the [plt.text] calls are
    exactly one per cell of the confusion matrix, in the order
    [np.ndenumerate] yields the cells, and the cell of row [i] and column
    [j] is written at x = [j], y = [i]. *)
Theorem one_annotation_per_cell {T} (R : Runtime T) :
  (forall g,
     outcome (LogisticRegressionBasic.script (R := R)) = Ok g ->
     annotations (trace (LogisticRegressionBasic.script (R := R)))
     = map annotation
         (Lib.ndenumerate world (LogisticRegressionBasic.conf_matrix g)))
  /\ (forall g,
        outcome (ClassificationTreeAdvanced.script (R := R)) = Ok g ->
        annotations (trace (ClassificationTreeAdvanced.script (R := R)))
        = map annotation
            (Lib.ndenumerate world
               (ClassificationTreeAdvanced.conf_matrix g))).
Proof.
  split; intros g Hg.
  - exact (logistic_annotation_facts R g Hg).
  - exact (tree_annotation_facts R g Hg).
Qed.

Lemma one_annotation_per_cell_sample :
  exists g,
    outcome (LogisticRegressionBasic.script (R := Sample.runtime true 0)) = Ok g
    /\ annotations
         (trace (LogisticRegressionBasic.script (R := Sample.runtime true 0)))
       = map annotation
           (Sample.enumerate (LogisticRegressionBasic.conf_matrix g)).
Proof.
  assert (Hrun : exists g,
             outcome (LogisticRegressionBasic.script
                        (R := Sample.runtime true 0)) = Ok g)
    by (eexists; vm_compute; reflexivity).
  destruct Hrun as [g Hg]. exists g. split; [exact Hg | ].
  destruct (one_annotation_per_cell (Sample.runtime true 0)) as [H _].
  exact (H g Hg).
Defined.

(** ** Summaries that are computed and dropped *)

Lemma bind_call_dropped {T A B} (f : fn) (r1 r2 : result A) (k1 k2 : Py T B) :
  same_failure r1 r2 -> k1 = k2 ->
  bind (call f r1) (fun _ => k1) = bind (call f r2) (fun _ => k2).
Proof.
  intros Hr <-. destruct r1 as [a1|e1], r2 as [a2|e2]; cbn in Hr;
    try contradiction; [reflexivity | subst e2; reflexivity].
Qed.

Lemma bind_congr {T A B} (m : Py T A) (k1 k2 : A -> Py T B) :
  (forall a, k1 a = k2 a) -> bind m k1 = bind m k2.
Proof.
  intros Hk. destruct m as [[a|e] t]; cbn; [rewrite Hk | ]; reflexivity.
Qed.

Ltac dropped_step Hvc Hsm :=
  cbv beta;
  lazymatch goal with
  | |- bind (Call.value_counts _ _) _ = _ =>
      apply bind_call_dropped; [apply Hvc | ]
  | |- bind (Call.sum _) _ = _ =>
      apply bind_call_dropped; [apply Hsm | ]
  | |- bind _ _ = bind _ _ => apply bind_congr; intros ?
  | |- (let '(_, _) := ?p in _) = _ => destruct p
  | |- _ = _ => reflexivity
  end.

(** X11.  The class-balance table ([value_counts], line 40) and the count
    of missing values ([isna().sum()], line 47) of the classification-tree
    script are computed and dropped: whatever [value_counts] and [sum]
    return, as long as they fail on the same arguments, the run is the
    same, in its result and in its log. *)
Theorem summaries_dropped {T} (W : Lib.World T) (e : Lib.entropy T)
    (vc : Lib.labels T -> bool -> result (Lib.summary T))
    (sm : Lib.frame T -> result (Lib.summary T)) :
  (forall s b, same_failure (vc s b) (Lib.value_counts W s b)) ->
  (forall d, same_failure (sm d) (Lib.sum W d)) ->
  ClassificationTreeAdvanced.script
    (R := {| world := with_summaries W vc sm; ambient := e |})
  = ClassificationTreeAdvanced.script (R := {| world := W; ambient := e |}).
Proof.
  intros Hvc Hsm. unfold ClassificationTreeAdvanced.script.
  repeat dropped_step Hvc Hsm.
Qed.

Lemma summaries_dropped_sample :
  ClassificationTreeAdvanced.script
    (R := {| world := with_summaries (Sample.libs true)
                        (fun _ _ => Ok tt) (fun _ => Ok tt);
             ambient := 0%nat |})
  = ClassificationTreeAdvanced.script (R := Sample.runtime true 0).
Proof.
  exact (summaries_dropped (Sample.libs true) 0%nat
           (fun _ _ => Ok tt) (fun _ => Ok tt)
           (fun _ _ => I) (fun _ => I)).
Defined.
